(** * InkFlow: gesture engine, page renderer, virtual scroll and reader

    A shallow embedding of [gestures.js] and of the reader part of [app.js].

    Numbers.  JavaScript numbers are modelled as exact rationals [Q]
    (pixel coordinates, millisecond time stamps, scales, velocities), so
    [0.90] is [9/10] and [0.3] is [3/10]; page numbers, which the code only
    compares, adds and subtracts, are integers [Z].  Equality of rationals
    is [Qeq] ([==]).

    Containers.  A JS [Map] or [Set] iterates in insertion order and the
    code depends on it ([pts[0]], [pts[1]], the first farthest page), so
    both are lists in insertion order.

    Effects.  Every handler is a function from the object's state to the
    new state and the list of callbacks it invoked, in order.  Timers,
    animation frames and promises of the host are explicit events. *)

From Stdlib Require Import QArith Qminmax Qabs Qround Qpower ZArith List Bool Lia Lqa.
From Stdlib Require String.
Import ListNotations.
Open Scope Q_scope.

(* ------------------------------------------------------------------ *)
(** ** Utilities *)

Module Util.

(** [a < b] on numbers, as a boolean. *)
Definition Qlt_bool (a b : Q) : bool := negb (Qle_bool b a).

(** [x || d] on numbers: [d] when [x] is 0. *)
Definition or_default (x d : Q) : Q := if Qeq_bool x 0 then d else x.

(** [function clamp(val, min, max) { return Math.min(Math.max(val, min), max); }] *)
Definition clamp (val min max : Q) : Q := Qmin (Qmax val min) max.

(** The same function on page numbers. *)
Definition clampZ (val min max : Z) : Z := Z.min (Z.max val min) max.

(** [Set.has], [Set.add] (appends when absent) and [Set.delete] on page numbers. *)
Definition has (p : Z) (s : list Z) : bool := existsb (Z.eqb p) s.
Definition add (p : Z) (s : list Z) : list Z := if has p s then s else s ++ [p].
Definition delete (p : Z) (s : list Z) : list Z := filter (fun q => negb (Z.eqb p q)) s.

(** [Map.get], [Map.has], [Map.set] (keeps the position of an existing key,
    appends a new one) and [Map.delete] on integer keys. *)
Fixpoint get {A} (k : Z) (m : list (Z * A)) : option A :=
  match m with
  | [] => None
  | (k', v) :: m' => if Z.eqb k k' then Some v else get k m'
  end.

Definition mhas {A} (k : Z) (m : list (Z * A)) : bool :=
  match get k m with Some _ => true | None => false end.

Fixpoint set {A} (k : Z) (v : A) (m : list (Z * A)) : list (Z * A) :=
  match m with
  | [] => [(k, v)]
  | (k', v') :: m' => if Z.eqb k k' then (k, v) :: m' else (k', v') :: set k v m'
  end.

Definition mdelete {A} (k : Z) (m : list (Z * A)) : list (Z * A) :=
  filter (fun kv => negb (Z.eqb k (fst kv))) m.

Definition values {A} (m : list (Z * A)) : list A := map snd m.

End Util.

(* ------------------------------------------------------------------ *)
(** ** GestureEngine *)

Module GestureEngine.
Import Util.

(** A value of the [_pointers] map: [{x, y, startX, startY}]. *)
Record Pointer := mkPointer { x : Q; y : Q; startX : Q; startY : Q }.

(** The fields of a pointer event that the handlers read. *)
Record PointerEvent := mkEvent
  { pointerId : Z; clientX : Q; clientY : Q; timeStamp : Q }.

(** A call of one of the callbacks in [this.cb]. *)
Inductive Callback : Type :=
| onPan (dx dy : Q) (isDragging : bool)
| onPanEnd
| onPinch (newScale midX midY panDx panDy : Q)
| onPinchEnd
| onTap (tx ty : Q)
| onDoubleTap (tx ty : Q)
| onLongPress (lx ly : Q).

(** [_longPressTimer]: [null], the handle of a pending timeout (with the
    coordinates its closure captured), or the handle of a timeout that
    has already run (the code leaves the handle in place). *)
Inductive Timer : Type :=
| TimerNull
| TimerPending (lx ly : Q)
| TimerRan.

(** [_momentumRafId]: [null], the handle of a requested frame (with the
    [vx], [vy] of the closure [step]), or the handle left behind by a
    sequence that stopped by itself. *)
Inductive Raf : Type :=
| RafNull
| RafPending (vx vy : Q)
| RafDone.

Record Engine := mkEngine
  { _pointers : list (Z * Pointer);
    _lastPanX : Q; _lastPanY : Q;
    _panVelX : Q; _panVelY : Q;
    _panTimestamp : Q;
    _momentumRafId : Raf;
    _initPinchDist : Q; _initPinchMidX : Q; _initPinchMidY : Q;
    _initPinchScale : Q;
    _lastTapTime : Q; _lastTapX : Q; _lastTapY : Q;
    _longPressTimer : Timer;
    _longPressFired : bool }.

(** The state the constructor builds. *)
Definition new_engine : Engine :=
  {| _pointers := [];
     _lastPanX := 0; _lastPanY := 0; _panVelX := 0; _panVelY := 0;
     _panTimestamp := 0;
     _momentumRafId := RafNull;
     _initPinchDist := 0; _initPinchMidX := 0; _initPinchMidY := 0;
     _initPinchScale := 1;
     _lastTapTime := 0; _lastTapX := 0; _lastTapY := 0;
     _longPressTimer := TimerNull;
     _longPressFired := false |}.

Definition _TAP_GAP : Q := 300.
Definition _TAP_DIST : Q := 40.
Definition FRICTION : Q := 9 # 10.
Definition MIN_VEL : Q := 3 # 10.

Definition with_pointers (s : Engine) (m : list (Z * Pointer)) : Engine :=
  mkEngine m (_lastPanX s) (_lastPanY s) (_panVelX s) (_panVelY s)
    (_panTimestamp s) (_momentumRafId s) (_initPinchDist s)
    (_initPinchMidX s) (_initPinchMidY s) (_initPinchScale s)
    (_lastTapTime s) (_lastTapX s) (_lastTapY s) (_longPressTimer s)
    (_longPressFired s).

Definition with_pan (s : Engine) (lx ly vx vy ts : Q) : Engine :=
  mkEngine (_pointers s) lx ly vx vy ts (_momentumRafId s) (_initPinchDist s)
    (_initPinchMidX s) (_initPinchMidY s) (_initPinchScale s)
    (_lastTapTime s) (_lastTapX s) (_lastTapY s) (_longPressTimer s)
    (_longPressFired s).

Definition with_raf (s : Engine) (r : Raf) : Engine :=
  mkEngine (_pointers s) (_lastPanX s) (_lastPanY s) (_panVelX s) (_panVelY s)
    (_panTimestamp s) r (_initPinchDist s)
    (_initPinchMidX s) (_initPinchMidY s) (_initPinchScale s)
    (_lastTapTime s) (_lastTapX s) (_lastTapY s) (_longPressTimer s)
    (_longPressFired s).

Definition with_pinch (s : Engine) (d mx my sc : Q) : Engine :=
  mkEngine (_pointers s) (_lastPanX s) (_lastPanY s) (_panVelX s) (_panVelY s)
    (_panTimestamp s) (_momentumRafId s) d mx my sc
    (_lastTapTime s) (_lastTapX s) (_lastTapY s) (_longPressTimer s)
    (_longPressFired s).

Definition with_tap (s : Engine) (t tx ty : Q) : Engine :=
  mkEngine (_pointers s) (_lastPanX s) (_lastPanY s) (_panVelX s) (_panVelY s)
    (_panTimestamp s) (_momentumRafId s) (_initPinchDist s)
    (_initPinchMidX s) (_initPinchMidY s) (_initPinchScale s)
    t tx ty (_longPressTimer s) (_longPressFired s).

Definition with_timer (s : Engine) (t : Timer) : Engine :=
  mkEngine (_pointers s) (_lastPanX s) (_lastPanY s) (_panVelX s) (_panVelY s)
    (_panTimestamp s) (_momentumRafId s) (_initPinchDist s)
    (_initPinchMidX s) (_initPinchMidY s) (_initPinchScale s)
    (_lastTapTime s) (_lastTapX s) (_lastTapY s) t (_longPressFired s).

Definition with_fired (s : Engine) (b : bool) : Engine :=
  mkEngine (_pointers s) (_lastPanX s) (_lastPanY s) (_panVelX s) (_panVelY s)
    (_panTimestamp s) (_momentumRafId s) (_initPinchDist s)
    (_initPinchMidX s) (_initPinchMidY s) (_initPinchScale s)
    (_lastTapTime s) (_lastTapX s) (_lastTapY s) (_longPressTimer s) b.

Section WithSqrt.

(** [Math.sqrt], a function of the host. *)
Variable sqrt : Q -> Q.

(** [_dist(a, b)] *)
Definition _dist (a b : Pointer) : Q :=
  let dx := x a - x b in
  let dy := y a - y b in
  sqrt (dx * dx + dy * dy).

(** [_mid(a, b)] *)
Definition _mid (a b : Pointer) : Q * Q :=
  ((x a + x b) / 2, (y a + y b) / 2).

(** [_cancelMomentum()]: a non-null handle is cancelled and set to [null]. *)
Definition _cancelMomentum (s : Engine) : Engine := with_raf s RafNull.

(** [_clearLongPress()] *)
Definition _clearLongPress (s : Engine) : Engine := with_timer s TimerNull.

(** [_startMomentum()]: [vx], [vy] are read once and a first frame is requested. *)
Definition _startMomentum (s : Engine) : Engine :=
  with_raf s (RafPending (_panVelX s) (_panVelY s)).

(** The closure [step] of [_startMomentum], run for velocity [(vx, vy)]:
    the new velocity, and whether the step went on to call [onPan] and to
    request the next frame. *)
Definition step (vx vy : Q) : Q * Q * bool :=
  let vx := vx * FRICTION in
  let vy := vy * FRICTION in
  if Qlt_bool (Qabs vx) MIN_VEL && Qlt_bool (Qabs vy) MIN_VEL
  then (vx, vy, false)
  else (vx, vy, true).

(** The host runs a requested animation frame. *)
Definition on_frame (s : Engine) : Engine * list Callback :=
  match _momentumRafId s with
  | RafPending vx vy =>
      match step vx vy with
      | (vx', vy', true) => (with_raf s (RafPending vx' vy'), [onPan vx' vy' false])
      | (_, _, false) => (with_raf s RafDone, [])
      end
  | _ => (s, [])
  end.

(** The host runs the long-press timeout. *)
Definition on_long_press_timeout (s : Engine) : Engine * list Callback :=
  match _longPressTimer s with
  | TimerPending lx ly =>
      (with_timer (with_fired s true) TimerRan, [onLongPress lx ly])
  | _ => (s, [])
  end.

(** [_onDown(e)]; [cur] is what [this.cb.getCurrentScale()] returns at that
    moment, [None] when the callback is absent. *)
Definition _onDown (cur : option Q) (e : PointerEvent) (s : Engine)
  : Engine * list Callback :=
  let s := _cancelMomentum s in
  let s := _clearLongPress s in
  let pt := mkPointer (clientX e) (clientY e) (clientX e) (clientY e) in
  let s := with_pointers s (set (pointerId e) pt (_pointers s)) in
  match values (_pointers s) with
  | [_] =>
      let s := with_pan s (clientX e) (clientY e) 0 0 (timeStamp e) in
      let s := with_fired s false in
      (with_timer s (TimerPending (clientX e) (clientY e)), [])
  | [p0; p1] =>
      let s := _clearLongPress s in
      let mid := _mid p0 p1 in
      (with_pinch s (_dist p0 p1) (fst mid) (snd mid)
         (match cur with Some c => c | None => 1 end), [])
  | _ => (s, [])
  end.

(** [_onMove(e)] *)
Definition _onMove (e : PointerEvent) (s : Engine) : Engine * list Callback :=
  match get (pointerId e) (_pointers s) with
  | None => (s, [])
  | Some pt0 =>
      let pt := mkPointer (clientX e) (clientY e) (startX pt0) (startY pt0) in
      let s := with_pointers s (set (pointerId e) pt (_pointers s)) in
      match values (_pointers s) with
      | [_] =>
          let dx := clientX e - _lastPanX s in
          let dy := clientY e - _lastPanY s in
          let dt := or_default (timeStamp e - _panTimestamp s) 16 in
          let s :=
            match _longPressTimer s with
            | TimerNull => s
            | _ =>
                if Qlt_bool 8 (Qabs (clientX e - startX pt))
                   || Qlt_bool 8 (Qabs (clientY e - startY pt))
                then _clearLongPress s else s
            end in
          let alpha := 6 # 10 in
          let vx := alpha * (dx / dt * 16) + (1 - alpha) * _panVelX s in
          let vy := alpha * (dy / dt * 16) + (1 - alpha) * _panVelY s in
          (with_pan s (clientX e) (clientY e) vx vy (timeStamp e),
           [onPan dx dy true])
      | [p0; p1] =>
          let newDist := _dist p0 p1 in
          let newMid := _mid p0 p1 in
          let scaleRatio := newDist / or_default (_initPinchDist s) 1 in
          let newScale := _initPinchScale s * scaleRatio in
          let panDx := fst newMid - _initPinchMidX s in
          let panDy := snd newMid - _initPinchMidY s in
          (s, [onPinch newScale (_initPinchMidX s) (_initPinchMidY s) panDx panDy])
      | _ => (s, [])
      end
  end.

(** [const moved = dx > 10 || dy > 10] of [_onUp]. *)
Definition moved (e : PointerEvent) (pt : Pointer) : bool :=
  let dx := Qabs (clientX e - startX pt) in
  let dy := Qabs (clientY e - startY pt) in
  Qlt_bool 10 dx || Qlt_bool 10 dy.

(** [_onUp(e)] *)
Definition _onUp (e : PointerEvent) (s : Engine) : Engine * list Callback :=
  match get (pointerId e) (_pointers s) with
  | None => (s, [])
  | Some pt =>
      let s := _clearLongPress s in
      let s := with_pointers s (mdelete (pointerId e) (_pointers s)) in
      match values (_pointers s) with
      | [] =>
          let '(s, cbs) :=
            if negb (_longPressFired s) then
              if negb (moved e pt) then
                let now := timeStamp e in
                let ddx := Qabs (clientX e - _lastTapX s) in
                let ddy := Qabs (clientY e - _lastTapY s) in
                if Qlt_bool (now - _lastTapTime s) _TAP_GAP
                   && Qlt_bool ddx _TAP_DIST && Qlt_bool ddy _TAP_DIST
                then (with_tap s 0 (_lastTapX s) (_lastTapY s),
                      [onDoubleTap (clientX e) (clientY e)])
                else (with_tap s now (clientX e) (clientY e),
                      [onTap (clientX e) (clientY e)])
              else
                let speed :=
                  sqrt (_panVelX s * _panVelX s + _panVelY s * _panVelY s) in
                if Qlt_bool (3 # 2) speed then (_startMomentum s, [])
                else (s, [])
            else (s, []) in
          (s, cbs ++ [onPanEnd])
      | [remainingPt] =>
          (with_pan s (x remainingPt) (y remainingPt) 0 0 (_panTimestamp s),
           [onPinchEnd])
      | _ => (s, [])
      end
  end.

(** [_onCancel(e)] *)
Definition _onCancel (e : PointerEvent) (s : Engine) : Engine * list Callback :=
  let s := with_pointers s (mdelete (pointerId e) (_pointers s)) in
  let s := _clearLongPress s in
  let s := _cancelMomentum s in
  (s, [onPanEnd]).

(** What the host can deliver to the engine. *)
Inductive Input : Type :=
| pointerdown (cur : option Q) (e : PointerEvent)
| pointermove (e : PointerEvent)
| pointerup (e : PointerEvent)
| pointercancel (e : PointerEvent)
| longPressTimeout
| animationFrame.

Definition handle (i : Input) (s : Engine) : Engine * list Callback :=
  match i with
  | pointerdown cur e => _onDown cur e s
  | pointermove e => _onMove e s
  | pointerup e => _onUp e s
  | pointercancel e => _onCancel e s
  | longPressTimeout => on_long_press_timeout s
  | animationFrame => on_frame s
  end.

(** A sequence of inputs, with every callback invoked on the way. *)
Fixpoint run (ins : list Input) (s : Engine) : Engine * list Callback :=
  match ins with
  | [] => (s, [])
  | i :: ins' =>
      let '(s1, c1) := handle i s in
      let '(s2, c2) := run ins' s1 in
      (s2, c1 ++ c2)
  end.


End WithSqrt.





End GestureEngine.

(* ------------------------------------------------------------------ *)
(** ** PdfRenderer *)

Module PdfRenderer.
Import Util.
Open Scope nat_scope.

(** How far one call of [renderPage] has got.  [AwaitingPage]: suspended at
    [await this.pdfDoc.getPage(pageNum)].  [Rendering]: [page.render] has
    created the render task and the call is suspended at
    [await renderTask.promise]; the task is outstanding.  The other states
    are final: the task's promise was fulfilled ([Completed]), rejected
    with an error ([Failed]) or rejected because [cancel()] was called on
    the running task ([Cancelled]); [Rejected] is a call whose [getPage]
    promise was rejected, so that no task was ever created. *)
Inductive CallState : Type :=
| AwaitingPage | Rendering | Completed | Failed | Cancelled | Rejected.

(** [_rendered] is the [Map<pageNum, {canvas, renderTask}>]; a render task
    is named by the number of the call of [renderPage] that created it.
    [calls] lists every call of [renderPage], oldest first (call [c] is
    the element of index [c]); [cancels] lists the calls of
    [renderTask.cancel()], oldest first. *)
Record Renderer := mkRenderer
  { _rendered : list (Z * nat);
    calls : list (Z * CallState);
    cancels : list nat }.

Definition new_renderer : Renderer := mkRenderer [] [] [].

Fixpoint update {A} (n : nat) (a : A) (l : list A) : list A :=
  match l, n with
  | [], _ => []
  | _ :: l', O => a :: l'
  | b :: l', S n' => b :: update n' a l'
  end.

(** [renderTask.cancel()] of the rasterization library: a running task
    stops and its promise is rejected as cancelled; a finished task is
    left as it is. *)
Definition cancel_task (t : nat) (r : Renderer) : Renderer :=
  mkRenderer (_rendered r)
    (match nth_error (calls r) t with
     | Some (p, Rendering) => update t (p, Cancelled) (calls r)
     | _ => calls r
     end)
    (cancels r ++ [t]).

(** [cancelPage(pageNum)] *)
Definition cancelPage (pageNum : Z) (r : Renderer) : Renderer :=
  let r :=
    match get pageNum (_rendered r) with
    | Some t => cancel_task t r
    | None => r
    end in
  mkRenderer (mdelete pageNum (_rendered r)) (calls r) (cancels r).

(** [renderPage(pageNum, ...)] up to its first [await]: the call cancels
    what is recorded for the page and is suspended on [getPage].  The
    result also gives the number of the call. *)
Definition renderPage (pageNum : Z) (r : Renderer) : Renderer * nat :=
  let r := cancelPage pageNum r in
  (mkRenderer (_rendered r) (calls r ++ [(pageNum, AwaitingPage)]) (cancels r),
   length (calls r)).

(** Call [c] resumes after [getPage]: [page.render] creates the task and
    [this._rendered.set(pageNum, {canvas, renderTask})] records it. *)
Definition getPage_resolved (c : nat) (r : Renderer) : Renderer :=
  match nth_error (calls r) c with
  | Some (p, AwaitingPage) =>
      mkRenderer (set p c (_rendered r)) (update c (p, Rendering) (calls r))
        (cancels r)
  | _ => r
  end.

(** The [getPage] promise of call [c] is rejected: [renderPage] rejects. *)
Definition getPage_rejected (c : nat) (r : Renderer) : Renderer * option Z :=
  match nth_error (calls r) c with
  | Some (p, AwaitingPage) =>
      (mkRenderer (_rendered r) (update c (p, Rejected) (calls r)) (cancels r),
       Some p)
  | _ => (r, None)
  end.

(** The task of call [c] finishes: [renderPage] goes on to [onDone(canvas)];
    the result names the page whose [onDone] runs. *)
Definition task_completed (c : nat) (r : Renderer) : Renderer * option Z :=
  match nth_error (calls r) c with
  | Some (p, Rendering) =>
      (mkRenderer (_rendered r) (update c (p, Completed) (calls r)) (cancels r),
       Some p)
  | _ => (r, None)
  end.

(** The task of call [c] fails: the [catch] of [renderPage] logs the error
    and [renderPage] returns normally, without [onDone]. *)
Definition task_failed (c : nat) (r : Renderer) : Renderer :=
  match nth_error (calls r) c with
  | Some (p, Rendering) =>
      mkRenderer (_rendered r) (update c (p, Failed) (calls r)) (cancels r)
  | _ => r
  end.

(** The render tasks outstanding for a page. *)
Definition is_outstanding (pageNum : Z) (c : Z * CallState) : bool :=
  match c with
  | (p, Rendering) => Z.eqb p pageNum
  | _ => false
  end.

Definition outstanding (pageNum : Z) (r : Renderer) : nat :=
  length (filter (is_outstanding pageNum) (calls r)).

(** What can happen to a renderer. *)
Inductive Op : Type :=
| call_renderPage (pageNum : Z)
| call_cancelPage (pageNum : Z)
| resolve_getPage (c : nat)
| reject_getPage (c : nat)
| complete_task (c : nat)
| fail_task (c : nat).

Definition exec (o : Op) (r : Renderer) : Renderer :=
  match o with
  | call_renderPage p => fst (renderPage p r)
  | call_cancelPage p => cancelPage p r
  | resolve_getPage c => getPage_resolved c r
  | reject_getPage c => fst (getPage_rejected c r)
  | complete_task c => fst (task_completed c r)
  | fail_task c => task_failed c r
  end.

Definition exec_all (os : list Op) (r : Renderer) : Renderer :=
  fold_left (fun r o => exec o r) os r.

End PdfRenderer.

(* ------------------------------------------------------------------ *)
(** ** VirtualScroll *)

Module VirtualScroll.
Import Util.
Open Scope Z_scope.

(** [placeholders] and [canvases] are the pages whose slot element holds a
    [.page-placeholder], respectively a [canvas.page-canvas]. *)
Record VirtualScroll := mkVS
  { renderer : PdfRenderer.Renderer;
    totalPages : Z;
    _rendered : list Z;
    _pending : list Z;
    _currentPage : Z;
    placeholders : list Z;
    canvases : list Z }.

Definition _maxBuffered : nat := 5.

(** The pages [1 .. n]. *)
Definition pages (n : Z) : list Z := map Z.of_nat (seq 1 (Z.to_nat n)).

(** The constructor and [_init]: every slot is created with a placeholder. *)
Definition new_scroll (r : PdfRenderer.Renderer) (total : Z) : VirtualScroll :=
  mkVS r total [] [] 1 (pages total) [].

(** [_evictPage(pageNum, slot)].  The removal of the faded canvas, which the
    code delays by 200 ms, is done at once. *)
Definition _evictPage (pageNum : Z) (v : VirtualScroll) : VirtualScroll :=
  if negb (has pageNum (_rendered v)) then v else
  let dist := Z.abs (pageNum - _currentPage v) in
  if dist <=? 2 then v else
  let r := PdfRenderer.cancelPage pageNum (renderer v) in
  let '(ph, cv) :=
    if has pageNum (canvases v)
    then (add pageNum (placeholders v), delete pageNum (canvases v))
    else (placeholders v, canvases v) in
  mkVS r (totalPages v) (delete pageNum (_rendered v)) (_pending v)
    (_currentPage v) ph cv.

(** The loop of [_evictFarPages]: the farthest rendered page and its distance. *)
Definition farthest_from (nearPage : Z) (rendered : list Z) : Z * Z :=
  fold_left
    (fun '(farthest, maxDist) p =>
       let d := Z.abs (p - nearPage) in
       if d >? maxDist then (p, d) else (farthest, maxDist))
    rendered (-1, 0).

(** [_evictFarPages(nearPage)]; [this._slots[farthest - 1]] exists for the
    pages [1 .. totalPages]. *)
Definition _evictFarPages (nearPage : Z) (v : VirtualScroll) : VirtualScroll :=
  if (length (_rendered v) <? _maxBuffered)%nat then v else
  let '(farthest, maxDist) := farthest_from nearPage (_rendered v) in
  if (farthest >? 0) && (maxDist >? 3) then
    if farthest <=? totalPages v then _evictPage farthest v else v
  else v.

(** [_renderSlot(pageNum, slot)] up to the first [await]. *)
Definition _renderSlot (pageNum : Z) (v : VirtualScroll) : VirtualScroll :=
  let v := _evictFarPages pageNum v in
  let '(r, _) := PdfRenderer.renderPage pageNum (renderer v) in
  mkVS r (totalPages v) (_rendered v) (_pending v) (_currentPage v)
    (placeholders v) (canvases v).

(** [_scheduleRender(pageNum, slot)] *)
Definition _scheduleRender (pageNum : Z) (v : VirtualScroll) : VirtualScroll :=
  if has pageNum (_rendered v) || has pageNum (_pending v) then v else
  let v := mkVS (renderer v) (totalPages v) (_rendered v)
             (add pageNum (_pending v)) (_currentPage v)
             (placeholders v) (canvases v) in
  _renderSlot pageNum v.

(** One entry of the intersection observer: the page of the slot, whether
    it intersects, and whether the midpoint of its rectangle is within 60%
    of the viewport extent from the viewport's midpoint. *)
Record Entry := mkEntry
  { pageNum : Z; isIntersecting : bool; nearMiddle : bool }.

(** The body of the loop of [_onIntersect]; the second component lists the
    calls of [onPageChange]. *)
Definition on_entry (en : Entry) (v : VirtualScroll) : VirtualScroll * list Z :=
  if isIntersecting en then
    let v := _scheduleRender (pageNum en) v in
    if nearMiddle en && negb (_currentPage v =? pageNum en) then
      (mkVS (renderer v) (totalPages v) (_rendered v) (_pending v)
         (pageNum en) (placeholders v) (canvases v), [pageNum en])
    else (v, [])
  else (_evictPage (pageNum en) v, []).

(** [_onIntersect(entries)] *)
Fixpoint _onIntersect (entries : list Entry) (v : VirtualScroll)
  : VirtualScroll * list Z :=
  match entries with
  | [] => (v, [])
  | en :: entries' =>
      let '(v1, c1) := on_entry en v in
      let '(v2, c2) := _onIntersect entries' v1 in
      (v2, (c1 ++ c2)%list)
  end.

(** The callback that [_renderSlot] passes to [renderPage] as [onDone]. *)
Definition on_done (pageNum : Z) (v : VirtualScroll) : VirtualScroll :=
  mkVS (renderer v) (totalPages v) (add pageNum (_rendered v))
    (delete pageNum (_pending v)) (_currentPage v)
    (delete pageNum (placeholders v)) (add pageNum (canvases v)).

(** The [catch] of [_renderSlot]. *)
Definition on_catch (pageNum : Z) (v : VirtualScroll) : VirtualScroll :=
  mkVS (renderer v) (totalPages v) (_rendered v)
    (delete pageNum (_pending v)) (_currentPage v)
    (placeholders v) (canvases v).

Definition with_renderer (v : VirtualScroll) (r : PdfRenderer.Renderer)
  : VirtualScroll :=
  mkVS r (totalPages v) (_rendered v) (_pending v) (_currentPage v)
    (placeholders v) (canvases v).

(** What the host delivers to an open document: observer entries, and the
    settling of the promises of call [c] of [renderPage]. *)
Inductive Event : Type :=
| intersect (entries : list Entry)
| getPage_resolved (c : nat)
| getPage_rejected (c : nat)
| render_completed (c : nat)
| render_failed (c : nat).

Definition step (ev : Event) (v : VirtualScroll) : VirtualScroll * list Z :=
  match ev with
  | intersect entries => _onIntersect entries v
  | getPage_resolved c =>
      (with_renderer v (PdfRenderer.getPage_resolved c (renderer v)), [])
  | getPage_rejected c =>
      match PdfRenderer.getPage_rejected c (renderer v) with
      | (r, Some p) => (on_catch p (with_renderer v r), [])
      | (r, None) => (with_renderer v r, [])
      end
  | render_completed c =>
      match PdfRenderer.task_completed c (renderer v) with
      | (r, Some p) => (on_done p (with_renderer v r), [])
      | (r, None) => (with_renderer v r, [])
      end
  | render_failed c =>
      (with_renderer v (PdfRenderer.task_failed c (renderer v)), [])
  end.

Fixpoint run (evs : list Event) (v : VirtualScroll) : VirtualScroll :=
  match evs with
  | [] => v
  | ev :: evs' => run evs' (fst (step ev v))
  end.

End VirtualScroll.

(* ------------------------------------------------------------------ *)
(** ** Reader (zoom, pan and paging state) *)

Module Reader.
Import Util.

Inductive Mode : Type := vertical | horizontal.

(** The fields of [Reader] that the gesture callbacks and the page jumps
    read or write, with the geometry of the viewport element
    ([clientWidth], [clientHeight], [scrollTop]). *)
Record Reader := mkReader
  { mode : Mode;
    totalPages : Z;
    currentPage : Z;
    _scale : Q;
    _translateX : Q;
    _translateY : Q;
    clientWidth : Q;
    clientHeight : Q;
    scrollTop : Q }.

Definition _minScale : Q := 1.
Definition _maxScale : Q := 5.

Definition with_transform (r : Reader) (sc tx ty : Q) : Reader :=
  mkReader (mode r) (totalPages r) (currentPage r) sc tx ty
    (clientWidth r) (clientHeight r) (scrollTop r).

(** What [_initLayout] does to the transform: [scale = 1], translate [(0, 0)]. *)
Definition _initLayout (r : Reader) : Reader := with_transform r 1 0 0.

(** [_clampPan()] *)
Definition _clampPan (r : Reader) : Reader :=
  if Qle_bool (_scale r) 1 then with_transform r (_scale r) 0 0 else
  let vw := clientWidth r in
  let vh := clientHeight r in
  let maxX := ((_scale r - 1) * vw) / 2 in
  let maxY := ((_scale r - 1) * vh) / 2 in
  with_transform r (_scale r)
    (clamp (_translateX r) (- maxX) maxX)
    (clamp (_translateY r) (- maxY) maxY).

(** [_zoomTo(targetScale, cx, cy, animate)] *)
Definition _zoomTo (targetScale cx cy : Q) (r : Reader) : Reader :=
  let vw := clientWidth r in
  let vh := clientHeight r in
  if Qle_bool targetScale 1 then with_transform r 1 0 0 else
  let dx := cx - vw / 2 in
  let dy := cy - vh / 2 in
  _clampPan
    (with_transform r targetScale
       (- dx * (targetScale - 1) / targetScale)
       (match mode r with
        | vertical => - dy * (targetScale - 1) / targetScale
        | horizontal => 0
        end)).

(** [_jumpToHPage(page, animate)] *)
Definition _jumpToHPage (page : Z) (r : Reader) : Reader :=
  let page := clampZ page 1 (totalPages r) in
  let vw := clientWidth r in
  with_transform r (_scale r) (- (inject_Z page - 1) * vw) (_translateY r).

(** [_snapHorizontalPage()] *)
Definition _snapHorizontalPage (r : Reader) : Reader :=
  let vw := clientWidth r in
  let page := currentPage r in
  let target := - (inject_Z page - 1) * vw in
  let diff := _translateX r - target in
  let dest :=
    if Qlt_bool diff (- vw * (2 # 10)) && (page <? totalPages r)%Z
    then (page + 1)%Z
    else if Qlt_bool (vw * (2 # 10)) diff && (page >? 1)%Z
    then (page - 1)%Z
    else page in
  _jumpToHPage dest r.

(** [_jumpPage(dir)]; in vertical mode the page is scrolled into view and
    the transform is not touched. *)
Definition _jumpPage (dir : Z) (r : Reader) : Reader :=
  match mode r with
  | vertical => r
  | horizontal =>
      let target := clampZ (currentPage r + dir) 1 (totalPages r) in
      _jumpToHPage target r
  end.

(** The tail of [_doScrub(e)], for the page the scrubber position gives. *)
Definition _doScrub (page : Z) (r : Reader) : Reader :=
  if negb (page =? currentPage r)%Z then
    match mode r with
    | vertical => r
    | horizontal => _jumpToHPage page r
    end
  else r.

(** [_onPageChanged(page)] *)
Definition _onPageChanged (page : Z) (r : Reader) : Reader :=
  mkReader (mode r) (totalPages r) page (_scale r) (_translateX r)
    (_translateY r) (clientWidth r) (clientHeight r) (scrollTop r).

(** The callbacks that [_initGestures] hands to the gesture engine. *)
Definition cb_onPan (dx dy : Q) (r : Reader) : Reader :=
  match mode r with
  | vertical =>
      if Qlt_bool (105 # 100) (_scale r) then
        _clampPan (with_transform r (_scale r) (_translateX r + dx) (_translateY r + dy))
      else
        mkReader (mode r) (totalPages r) (currentPage r) (_scale r)
          (_translateX r) (_translateY r) (clientWidth r) (clientHeight r)
          (scrollTop r - dy)
  | horizontal =>
      with_transform r (_scale r) (_translateX r + dx) (_translateY r)
  end.

Definition cb_onPanEnd (r : Reader) : Reader :=
  match mode r with
  | horizontal =>
      if Qle_bool (_scale r) (105 # 100) then _snapHorizontalPage r else r
  | vertical => r
  end.

Definition cb_onPinch (newScale panDx panDy : Q) (r : Reader) : Reader :=
  let clamped := clamp newScale _minScale _maxScale in
  _clampPan (with_transform r clamped panDx panDy).

Definition cb_onPinchEnd (r : Reader) : Reader :=
  if Qlt_bool (_scale r) (105 # 100) then _zoomTo 1 0 0 r else r.

Definition cb_onDoubleTap (tx ty : Q) (r : Reader) : Reader :=
  if Qlt_bool (105 # 100) (_scale r) then _zoomTo 1 tx ty r
  else _zoomTo (25 # 10) tx ty r.

(** A gesture callback, as the reader registered it. *)
Definition on_gesture (c : GestureEngine.Callback) (r : Reader) : Reader :=
  match c with
  | GestureEngine.onPan dx dy _ => cb_onPan dx dy r
  | GestureEngine.onPanEnd => cb_onPanEnd r
  | GestureEngine.onPinch newScale _ _ panDx panDy => cb_onPinch newScale panDx panDy r
  | GestureEngine.onPinchEnd => cb_onPinchEnd r
  | GestureEngine.onTap _ _ => r
  | GestureEngine.onDoubleTap tx ty => cb_onDoubleTap tx ty r
  | GestureEngine.onLongPress _ _ => r
  end.

(** Everything that changes the view of an open document. *)
Inductive Mutation : Type :=
| gesture (c : GestureEngine.Callback)
| jumpPage (dir : Z)
| scrub (page : Z)
| pageChanged (page : Z).

Definition mutate (m : Mutation) (r : Reader) : Reader :=
  match m with
  | gesture c => on_gesture c r
  | jumpPage dir => _jumpPage dir r
  | scrub page => _doScrub page r
  | pageChanged page => _onPageChanged page r
  end.

(** A sequence of mutations, oldest first. *)
Definition mutate_all (ms : list Mutation) (r : Reader) : Reader :=
  fold_left (fun r m => mutate m r) ms r.

(** The invariant of the view transform. *)
Definition scale_in_range (r : Reader) : Prop :=
  _minScale <= _scale r /\ _scale r <= _maxScale.

Definition pinned (r : Reader) : Prop :=
  _scale r <= 1 -> _translateX r == 0 /\ _translateY r == 0.

End Reader.


(* ------------------------------------------------------------------ *)
(** ** PdfRenderer: cancelling everything *)

Module RendererTeardown.
Import Util.

(** [cancelAll()]: [cancelPage] for every key of [_rendered], then
    [_rendered.clear()].  The loop runs over the live map while
    [cancelPage] deletes the entry being visited; the keys of a map are
    distinct, so every entry is visited once, in insertion order. *)
Definition cancelAll (r : PdfRenderer.Renderer) : PdfRenderer.Renderer :=
  let r :=
    fold_left (fun r num => PdfRenderer.cancelPage num r)
      (map fst (PdfRenderer._rendered r)) r in
  PdfRenderer.mkRenderer [] (PdfRenderer.calls r) (PdfRenderer.cancels r).

End RendererTeardown.

(* ------------------------------------------------------------------ *)
(** ** Reader: progress, scrubber and start page *)

Module ReaderPages.
Import Util.

(** [Math.round]: the nearest integer, halves rounded up. *)
Definition round (q : Q) : Z := Qfloor (q + (1 # 2)).

(** [const pct = (page - 1) / Math.max(this.totalPages - 1, 1)] of
    [_onPageChanged]. *)
Definition pct (page totalPages : Z) : Q :=
  (inject_Z page - 1) / inject_Z (Z.max (totalPages - 1) 1).

(** The page that [_doScrub(e)] computes from the pointer position and
    the rectangle of the progress track. *)
Definition scrub_page (clientX left width : Q) (totalPages : Z) : Z :=
  let pct := clamp ((clientX - left) / width) 0 1 in
  (round (pct * (inject_Z totalPages - 1)) + 1)%Z.

(** [startPage] of [open]: [saved] is [prog?.currentPage], [None] when
    there is no progress record or no such field. *)
Definition startPage (saved : option Z) (totalPages : Z) : Z :=
  match saved with
  | Some c => if negb (c =? 0)%Z && (c >? 1)%Z then Z.min c totalPages else 1%Z
  | None => 1%Z
  end.

End ReaderPages.

(* ------------------------------------------------------------------ *)
(** ** DB (db.js): the three object stores *)

Module DB.

(** An object store with key path [id]: the records in the order of their
    first [put], each under its key. *)
Fixpoint sget {V} (k : String.string) (m : list (String.string * V)) : option V :=
  match m with
  | [] => None
  | (k', v) :: m' => if String.eqb k k' then Some v else sget k m'
  end.

(** [objectStore.put(value)]: replaces the record with the same key, or
    adds one. *)
Fixpoint sput {V} (k : String.string) (v : V) (m : list (String.string * V))
  : list (String.string * V) :=
  match m with
  | [] => [(k, v)]
  | (k', v') :: m' =>
      if String.eqb k k' then (k, v) :: m' else (k', v') :: sput k v m'
  end.

(** [objectStore.delete(key)] *)
Definition sdel {V} (k : String.string) (m : list (String.string * V))
  : list (String.string * V) :=
  filter (fun kv => negb (String.eqb k (fst kv))) m.

(** The records of the stores [comics] and [progress]. *)
Record Comic := mkComic
  { id : String.string; title : String.string; size : Z; addedAt : Z;
    coverDataUrl : String.string }.

Record ProgressData := mkData
  { currentPage : Z; totalPages : Z; mode : Reader.Mode }.

Record Progress := mkProgress { data : ProgressData; lastRead : Z }.

Section Stores.

(** The type of the PDF blobs. *)
Variable Blob : Type.

Record Db := mkDb
  { comics : list (String.string * Comic);
    files : list (String.string * Blob);
    progress : list (String.string * Progress) }.

(** [saveComic(meta)] *)
Definition saveComic (meta : Comic) (db : Db) : Db :=
  mkDb (sput (id meta) meta (comics db)) (files db) (progress db).

(** [deleteComic(id)] *)
Definition deleteComic (i : String.string) (db : Db) : Db :=
  let db := mkDb (sdel i (comics db)) (files db) (progress db) in
  let db := mkDb (comics db) (sdel i (files db)) (progress db) in
  mkDb (comics db) (files db) (sdel i (progress db)).

(** [saveFile(id, blob)] *)
Definition saveFile (i : String.string) (blob : Blob) (db : Db) : Db :=
  mkDb (comics db) (sput i blob (files db)) (progress db).

(** [getFile(id)]: the blob of the record, [None] for [null]. *)
Definition getFile (i : String.string) (db : Db) : option Blob :=
  match sget i (files db) with
  | Some blob => Some blob
  | None => None
  end.

(** [saveProgress(id, data)]; [now] is [Date.now()]. *)
Definition saveProgress (i : String.string) (d : ProgressData) (now : Z)
    (db : Db) : Db :=
  mkDb (comics db) (files db) (sput i (mkProgress d now) (progress db)).

(** [getProgress(id)] *)
Definition getProgress (i : String.string) (db : Db) : option Progress :=
  sget i (progress db).

(** [resetProgress(id)] *)
Definition resetProgress (i : String.string) (db : Db) : Db :=
  mkDb (comics db) (files db) (sdel i (progress db)).

End Stores.

End DB.

(* ------------------------------------------------------------------ *)
(** ** Service worker: the cache-first strategy *)

Module ServiceWorker.

Record Request := mkRequest { url : String.string; navigate : bool }.

Record Response := mkResponse { ok : bool; body : String.string }.

Section Strategy.

(** The URL that ['./index.html'] resolves to. *)
Variable index_html : String.string.

(** [fetch(request)]: the response, or [None] when the promise is
    rejected. *)
Variable fetch : Request -> option Response.

Definition Cache := list (String.string * Response).

(** [fetchAndCache(request, cache)] *)
Definition fetchAndCache (request : Request) (cache : Cache)
  : option Response * Cache :=
  match fetch request with
  | Some response =>
      (Some response,
       if ok response then DB.sput (url request) response cache else cache)
  | None => (None, cache)
  end.

(** [cacheFirst(request, updateIfFresh)]: the response ([None] when the
    function throws) and the cache once the writes it started are done;
    the revalidation in the background has its errors swallowed. *)
Definition cacheFirst (request : Request) (updateIfFresh : bool) (cache : Cache)
  : option Response * Cache :=
  match DB.sget (url request) cache with
  | Some cached =>
      (Some cached,
       if negb updateIfFresh then snd (fetchAndCache request cache) else cache)
  | None =>
      match fetch request with
      | Some response =>
          (Some response,
           if ok response then DB.sput (url request) response cache else cache)
      | None =>
          if navigate request then
            match DB.sget index_html cache with
            | Some fallback => (Some fallback, cache)
            | None => (None, cache)
            end
          else (None, cache)
      end
  end.

End Strategy.

(** Every cached response is a successful one. *)
Definition all_ok (cache : list (String.string * Response)) : Prop :=
  forall k r, DB.sget k cache = Some r -> ok r = true.

End ServiceWorker.

(* ------------------------------------------------------------------ *)
(** ** Measures used in the statements *)

Module Measure.

(** The sums of the horizontal and of the vertical deltas passed to
    [onPan]. *)
Fixpoint pan_dx (cbs : list GestureEngine.Callback) : Q :=
  match cbs with
  | [] => 0
  | GestureEngine.onPan dx _ _ :: cbs' => dx + pan_dx cbs'
  | _ :: cbs' => pan_dx cbs'
  end.

Fixpoint pan_dy (cbs : list GestureEngine.Callback) : Q :=
  match cbs with
  | [] => 0
  | GestureEngine.onPan _ dy _ :: cbs' => dy + pan_dy cbs'
  | _ :: cbs' => pan_dy cbs'
  end.

(** A call of [renderPage] for [pageNum] that has not settled: it waits
    for [getPage] or its render task is running. *)
Definition is_live (pageNum : Z) (c : Z * PdfRenderer.CallState) : bool :=
  match c with
  | (p, PdfRenderer.AwaitingPage) => Z.eqb p pageNum
  | (p, PdfRenderer.Rendering) => Z.eqb p pageNum
  | _ => false
  end.

Definition live (pageNum : Z) (r : PdfRenderer.Renderer) : nat :=
  length (filter (is_live pageNum) (PdfRenderer.calls r)).

(** Every reported page differs from the one before it, the first from
    [cur]. *)
Fixpoint changes (cur : Z) (out : list Z) : Prop :=
  match out with
  | [] => True
  | p :: out' => p <> cur /\ changes p out'
  end.

(** The translate is within the pan range of the current scale. *)
Definition pan_within_bounds (r : Reader.Reader) : Prop :=
  Qabs (Reader._translateX r)
    <= Qmax 0 ((Reader._scale r - 1) * Reader.clientWidth r / 2)
  /\ Qabs (Reader._translateY r)
    <= Qmax 0 ((Reader._scale r - 1) * Reader.clientHeight r / 2).

(** No page is both rendered and pending. *)
Definition disjoint (v : VirtualScroll.VirtualScroll) : Prop :=
  forall p, Util.has p (VirtualScroll._rendered v) = true ->
            Util.has p (VirtualScroll._pending v) = false.

(** For every page at most one call of [renderPage] is live, and a page
    with a live call is pending. *)
Definition one_live_render (v : VirtualScroll.VirtualScroll) : Prop :=
  forall p,
    (live p (VirtualScroll.renderer v) <= 1)%nat
    /\ ((1 <= live p (VirtualScroll.renderer v))%nat ->
        Util.has p (VirtualScroll._pending v) = true).

(** Task [t] is not running. *)
Definition settled (t : nat) (r : PdfRenderer.Renderer) : Prop :=
  forall q, nth_error (PdfRenderer.calls r) t <> Some (q, PdfRenderer.Rendering).

(** A long-press timeout is pending only while exactly one contact is
    active, and a momentum frame only while none is. *)
Definition timers_match_contacts (s : GestureEngine.Engine) : Prop :=
  (forall lx ly,
      GestureEngine._longPressTimer s = GestureEngine.TimerPending lx ly ->
      length (GestureEngine._pointers s) = 1%nat)
  /\ (forall vx vy,
        GestureEngine._momentumRafId s = GestureEngine.RafPending vx vy ->
        GestureEngine._pointers s = []).

End Measure.

(* ------------------------------------------------------------------ *)
(** ** Concrete inputs for the examples *)

(** A stand-in for [Math.sqrt] in examples: exact on the squares of
    rationals, and the same on equal rationals. *)
Definition sqrt_on_squares (q : Q) : Q :=
  let r := Qred q in
  inject_Z (Z.sqrt (Qnum r)) / inject_Z (Z.sqrt (Zpos (Qden r))).



(** An event of pointer 1 at [(px, py)] at time [t]. *)
Definition ev (px py t : Q) : GestureEngine.PointerEvent :=
  GestureEngine.mkEvent 1 px py t.

(** A fresh engine on which pointer 1 has gone down at (100, 100) at 1000 ms. *)
Definition engine_pressed : GestureEngine.Engine :=
  fst (GestureEngine._onDown sqrt_on_squares None (ev 100 100 1000)
         GestureEngine.new_engine).


(** The engine after presses of pointer 1 at (0, 0) and of pointer 2 at
    (100, 0), at scale 1: a pinch with baseline distance 100. *)
Definition engine_pinching : GestureEngine.Engine :=
  fst (GestureEngine.run sqrt_on_squares
         [GestureEngine.pointerdown (Some 1) (GestureEngine.mkEvent 1 0 0 1000);
          GestureEngine.pointerdown (Some 1) (GestureEngine.mkEvent 2 100 0 1010)]
         GestureEngine.new_engine).

(** On a ten-page document the pages 1 to 5 become visible, page 3 near
    the middle of the viewport, and their renders complete. *)
Definition events_five : list VirtualScroll.Event :=
  [VirtualScroll.intersect
     [VirtualScroll.mkEntry 1 true false; VirtualScroll.mkEntry 2 true false;
      VirtualScroll.mkEntry 3 true true; VirtualScroll.mkEntry 4 true false;
      VirtualScroll.mkEntry 5 true false];
   VirtualScroll.getPage_resolved 0; VirtualScroll.getPage_resolved 1;
   VirtualScroll.getPage_resolved 2; VirtualScroll.getPage_resolved 3;
   VirtualScroll.getPage_resolved 4;
   VirtualScroll.render_completed 0; VirtualScroll.render_completed 1;
   VirtualScroll.render_completed 2; VirtualScroll.render_completed 3;
   VirtualScroll.render_completed 4].

Definition scroll_five : VirtualScroll.VirtualScroll :=
  VirtualScroll.run events_five
    (VirtualScroll.new_scroll PdfRenderer.new_renderer 10).

(** Page 6 becomes visible as well and its render completes. *)
Definition events_six : list VirtualScroll.Event :=
  events_five ++
  [VirtualScroll.intersect [VirtualScroll.mkEntry 6 true false];
   VirtualScroll.getPage_resolved 5; VirtualScroll.render_completed 5].

(** Page 3 becomes visible and its render task fails. *)
Definition events_failed : list VirtualScroll.Event :=
  [VirtualScroll.intersect [VirtualScroll.mkEntry 3 true true];
   VirtualScroll.getPage_resolved 0; VirtualScroll.render_failed 0].

(** Page 3 becomes visible and the [getPage] promise is rejected. *)
Definition events_rejected : list VirtualScroll.Event :=
  [VirtualScroll.intersect [VirtualScroll.mkEntry 3 true true];
   VirtualScroll.getPage_rejected 0].

(** [renderPage(1, ...)] is called twice before the [getPage] promise of
    the first call settles; then both promises are fulfilled. *)
Definition ops_race : list PdfRenderer.Op :=
  [PdfRenderer.call_renderPage 1; PdfRenderer.call_renderPage 1;
   PdfRenderer.resolve_getPage 0; PdfRenderer.resolve_getPage 1].

(** A reader in horizontal mode on a three-page document, 100 px wide,
    unzoomed and at rest on page 1. *)
Definition reader_h : Reader.Reader :=
  Reader.mkReader Reader.horizontal 3 1 1 0 0 100 200 0.

(** A reader in vertical mode, zoomed to 2.5 and panned. *)
Definition reader_v : Reader.Reader :=
  Reader.mkReader Reader.vertical 3 1 (25 # 10) 40 (-30) 100 200 0.

(** A drag of pointer 1 from (100, 100) to (130, 95) in two moves. *)
Definition drag_moves : list GestureEngine.PointerEvent :=
  [ev 110 105 1016; ev 130 95 1032].

(** A renderer with the running tasks 0 and 1 recorded for the pages 1
    and 2. *)
Definition renderer_two : PdfRenderer.Renderer :=
  PdfRenderer.exec_all
    [PdfRenderer.call_renderPage 1; PdfRenderer.resolve_getPage 0;
     PdfRenderer.call_renderPage 2; PdfRenderer.resolve_getPage 1]
    PdfRenderer.new_renderer.

(** With the pages 1 to 5 rendered, page 8 becomes visible near the middle
    of the viewport and is the current page. *)
Definition scroll_moved : VirtualScroll.VirtualScroll :=
  fst (VirtualScroll.step
         (VirtualScroll.intersect [VirtualScroll.mkEntry 8 true true])
         scroll_five).

Module WorkerSamples.
Import Stdlib.Strings.String.

Definition index_html : string := "https://inkflow.example/index.html"%string.

Definition request_app : ServiceWorker.Request :=
  ServiceWorker.mkRequest "https://inkflow.example/app.js"%string false.

Definition response_app : ServiceWorker.Response :=
  ServiceWorker.mkResponse true "app"%string.

Definition response_missing : ServiceWorker.Response :=
  ServiceWorker.mkResponse false "not found"%string.

(** Networks that answer every request with the same response, and one
    that is down. *)
Definition network_up (_ : ServiceWorker.Request) : option ServiceWorker.Response :=
  Some response_app.

Definition network_missing (_ : ServiceWorker.Request)
  : option ServiceWorker.Response :=
  Some response_missing.

Definition network_down (_ : ServiceWorker.Request)
  : option ServiceWorker.Response :=
  None.

End WorkerSamples.

(* ================================================================== *)
(** * Properties *)

(** ** Comparisons and clamping *)

Lemma Qlt_bool_iff (a b : Q) : Util.Qlt_bool a b = true <-> a < b.
Proof.
  unfold Util.Qlt_bool. rewrite negb_true_iff. split.
  - intro H. apply Qnot_le_lt. intro L. apply Qle_bool_iff in L. congruence.
  - intro H. destruct (Qle_bool b a) eqn:E; [|reflexivity].
    apply Qle_bool_iff in E. exfalso. apply (Qlt_not_le a b H E).
Qed.

Lemma Qlt_bool_false_iff (a b : Q) : Util.Qlt_bool a b = false <-> b <= a.
Proof.
  unfold Util.Qlt_bool. rewrite negb_false_iff. apply Qle_bool_iff.
Qed.

Lemma clamp_range (v lo hi : Q) :
  lo <= hi -> lo <= Util.clamp v lo hi /\ Util.clamp v lo hi <= hi.
Proof.
  intro H. unfold Util.clamp. split.
  - apply Q.min_glb; [apply Q.le_max_r | exact H].
  - apply Q.le_min_r.
Qed.

Lemma clampZ_range (v lo hi : Z) :
  (lo <= hi -> lo <= Util.clampZ v lo hi <= hi)%Z.
Proof. unfold Util.clampZ. lia. Qed.

(** ** Reader *)

Section ReaderFacts.
Import Reader.

Lemma clampPan_scale (r : Reader) : _scale (_clampPan r) = _scale r.
Proof. unfold _clampPan. destruct (Qle_bool (_scale r) 1); reflexivity. Qed.

Lemma clampPan_pinned (r : Reader) : pinned (_clampPan r).
Proof.
  unfold pinned, _clampPan. destruct (Qle_bool (_scale r) 1) eqn:E; simpl.
  - intros _. split; reflexivity.
  - intro H. apply Qle_bool_iff in H. congruence.
Qed.

Lemma zoomTo_scale (t cx cy : Q) (r : Reader) :
  _scale (_zoomTo t cx cy r) = if Qle_bool t 1 then 1 else t.
Proof.
  unfold _zoomTo. destruct (Qle_bool t 1); [reflexivity|].
  rewrite clampPan_scale. reflexivity.
Qed.

Lemma zoomTo_pinned (t cx cy : Q) (r : Reader) : pinned (_zoomTo t cx cy r).
Proof.
  unfold _zoomTo. destruct (Qle_bool t 1).
  - intros _. split; reflexivity.
  - apply clampPan_pinned.
Qed.

Lemma jumpToHPage_scale (p : Z) (r : Reader) :
  _scale (_jumpToHPage p r) = _scale r.
Proof. reflexivity. Qed.

Lemma mutate_mode (m : Mutation) (r : Reader) : mode (mutate m r) = mode r.
Proof.
  assert (C : forall r', mode (_clampPan r') = mode r').
  { intro r'. unfold _clampPan. destruct (Qle_bool _ _); reflexivity. }
  assert (Zm : forall t cx cy r', mode (_zoomTo t cx cy r') = mode r').
  { intros. unfold _zoomTo. destruct (Qle_bool _ _); [reflexivity|].
    rewrite C. reflexivity. }
  destruct m as [c|dir|page|page]; simpl; [destruct c; simpl|..];
    unfold cb_onPan, cb_onPanEnd, cb_onPinch, cb_onPinchEnd, cb_onDoubleTap,
      _jumpPage, _doScrub, _snapHorizontalPage;
    repeat match goal with
      | |- context [match mode r with _ => _ end] => destruct (mode r) eqn:M
      | |- context [if ?b then _ else _] => destruct b
      end;
    rewrite ?Zm, ?C; simpl; try reflexivity; try assumption.
Qed.

Lemma mutate_scale_in_range (m : Mutation) (r : Reader) :
  scale_in_range r -> scale_in_range (mutate m r).
Proof.
  unfold scale_in_range, _minScale, _maxScale. intros [H1 H2].
  destruct m as [c|dir|page|page]; simpl.
  - destruct c; simpl; try (split; assumption).
    + unfold cb_onPan. destruct (mode r).
      * destruct (Util.Qlt_bool _ _); [rewrite clampPan_scale|]; simpl; split; assumption.
      * simpl. split; assumption.
    + unfold cb_onPanEnd. destruct (mode r); [split; assumption|].
      destruct (Qle_bool _ _); [|split; assumption].
      unfold _snapHorizontalPage. rewrite jumpToHPage_scale. split; assumption.
    + unfold cb_onPinch. rewrite clampPan_scale. simpl.
      apply clamp_range. unfold _minScale, _maxScale. lra.
    + unfold cb_onPinchEnd. destruct (Util.Qlt_bool _ _); [|split; assumption].
      rewrite zoomTo_scale. simpl. lra.
    + unfold cb_onDoubleTap. destruct (Util.Qlt_bool _ _);
        rewrite zoomTo_scale; simpl; lra.
  - unfold _jumpPage. destruct (mode r); [split; assumption|].
    rewrite jumpToHPage_scale. split; assumption.
  - unfold _doScrub. destruct (negb _); [|split; assumption].
    destruct (mode r); [split; assumption|].
    rewrite jumpToHPage_scale. split; assumption.
  - split; assumption.
Qed.

Lemma mutate_vertical_pinned (m : Mutation) (r : Reader) :
  mode r = vertical -> pinned r -> pinned (mutate m r).
Proof.
  intros M P. destruct m as [c|dir|page|page]; simpl.
  - destruct c; simpl; try exact P.
    + unfold cb_onPan. rewrite M.
      destruct (Util.Qlt_bool _ _); [apply clampPan_pinned|exact P].
    + unfold cb_onPanEnd. rewrite M. exact P.
    + apply clampPan_pinned.
    + unfold cb_onPinchEnd. destruct (Util.Qlt_bool _ _);
        [apply zoomTo_pinned|exact P].
    + unfold cb_onDoubleTap. destruct (Util.Qlt_bool _ _); apply zoomTo_pinned.
  - unfold _jumpPage. rewrite M. exact P.
  - unfold _doScrub. destruct (negb _); [|exact P]. rewrite M. exact P.
  - exact P.
Qed.

Lemma mutate_all_scale_in_range (ms : list Mutation) :
  forall r, scale_in_range r -> scale_in_range (mutate_all ms r).
Proof.
  induction ms as [|m ms IH]; intros r H; [exact H|].
  apply (IH (mutate m r)). apply mutate_scale_in_range. exact H.
Qed.

Lemma mutate_all_vertical_pinned (ms : list Mutation) :
  forall r, mode r = vertical -> pinned r -> pinned (mutate_all ms r).
Proof.
  induction ms as [|m ms IH]; intros r M P; [exact P|].
  apply (IH (mutate m r)).
  - rewrite mutate_mode. exact M.
  - apply mutate_vertical_pinned; assumption.
Qed.

End ReaderFacts.

(** C4, as stated, fails: in horizontal mode the horizontal translate is
    the page offset, so a jump to the next page (and likewise a drag)
    leaves scale 1 with a translate that is not [(0, 0)]. *)
Lemma C4_pinned_fails_in_horizontal_mode :
  ~ (forall (m : Reader.Mutation) (r : Reader.Reader),
        Reader.scale_in_range r -> Reader.pinned r ->
        Reader.scale_in_range (Reader.mutate m r)
        /\ Reader.pinned (Reader.mutate m r)).
Proof.
  intro H.
  destruct (H (Reader.jumpPage 1) reader_h) as [_ P].
  - split; discriminate.
  - intros _. split; reflexivity.
  - destruct P as [P _]; [discriminate|]. discriminate P.
Qed.

(** C4, amended: every mutation (pan, pan end, pinch, pinch end,
    double-tap zoom, page jump, scrubbing, page change), in both modes,
    keeps the scale within [1, 5]; in vertical mode every mutation keeps
    the translate at (0, 0) whenever the scale is at most 1; and in either
    mode a pinch and a double-tap zoom leave the translate at (0, 0)
    whenever the resulting scale is at most 1.  So after any sequence of
    mutations of a freshly laid out view the scale is within [1, 5], and
    in vertical mode the translate is (0, 0) whenever the scale is at
    most 1. *)
Theorem C4_view_transform_invariant (m : Reader.Mutation) (r : Reader.Reader) :
  (Reader.scale_in_range r -> Reader.scale_in_range (Reader.mutate m r))
  /\ (Reader.mode r = Reader.vertical -> Reader.pinned r ->
      Reader.pinned (Reader.mutate m r))
  /\ (forall newScale midX midY panDx panDy,
        Reader.scale_in_range
          (Reader.on_gesture (GestureEngine.onPinch newScale midX midY panDx panDy) r)
        /\ Reader.pinned
          (Reader.on_gesture (GestureEngine.onPinch newScale midX midY panDx panDy) r))
  /\ (forall tx ty,
        Reader.pinned (Reader.on_gesture (GestureEngine.onDoubleTap tx ty) r))
  /\ (forall ms,
        Reader.scale_in_range (Reader.mutate_all ms (Reader._initLayout r))
        /\ (Reader.mode r = Reader.vertical ->
            Reader.pinned (Reader.mutate_all ms (Reader._initLayout r)))).
Proof.
  split; [apply mutate_scale_in_range|].
  split; [apply mutate_vertical_pinned|].
  split; [|split].
  - intros. split.
    + simpl. unfold Reader.scale_in_range, Reader.cb_onPinch.
      rewrite clampPan_scale. simpl. apply clamp_range.
      unfold Reader._minScale, Reader._maxScale. lra.
    + apply clampPan_pinned.
  - intros. simpl. unfold Reader.cb_onDoubleTap.
    destruct (Util.Qlt_bool _ _); apply zoomTo_pinned.
  - intro ms. split.
    + apply mutate_all_scale_in_range. split; discriminate.
    + intro M. apply mutate_all_vertical_pinned; [exact M|].
      intros _. split; reflexivity.
Qed.

(** The invariant at work: a pan by (500, 500) of a view zoomed to 2.5 in
    vertical mode. *)
Lemma C4_view_transform_invariant_witness :
  Reader.scale_in_range reader_v
  /\ Reader.mode reader_v = Reader.vertical
  /\ Reader.pinned reader_v
  /\ Reader.scale_in_range
       (Reader.mutate (Reader.gesture (GestureEngine.onPan 500 500 true)) reader_v)
  /\ Reader.pinned
       (Reader.mutate (Reader.gesture (GestureEngine.onPan 500 500 true)) reader_v).
Proof.
  assert (S : Reader.scale_in_range reader_v) by (split; discriminate).
  assert (P : Reader.pinned reader_v).
  { intro H. exfalso. revert H. unfold reader_v, Qle. simpl. lia. }
  split; [exact S|]. split; [reflexivity|]. split; [exact P|].
  destruct (C4_view_transform_invariant
              (Reader.gesture (GestureEngine.onPan 500 500 true)) reader_v)
    as (H1 & H2 & _).
  split; [apply H1; exact S | apply H2; [reflexivity | exact P]].
Defined.

(** C10: a horizontal page jump sets the horizontal translate to
    [-(clamp(page, 1, totalPages) - 1) * viewportWidth] for every page
    argument and leaves scale and vertical translate alone; on a document
    with at least one page the clamped page is [page] when it is in
    [1 .. totalPages], 1 when it is below and [totalPages] when it is
    above. *)
Theorem C10_jumpToHPage_clamps (page : Z) (r : Reader.Reader) :
  let p := Util.clampZ page 1 (Reader.totalPages r) in
  Reader._translateX (Reader._jumpToHPage page r)
    == - (inject_Z p - 1) * Reader.clientWidth r
  /\ Reader._scale (Reader._jumpToHPage page r) = Reader._scale r
  /\ Reader._translateY (Reader._jumpToHPage page r) = Reader._translateY r
  /\ ((1 <= Reader.totalPages r)%Z ->
      (1 <= p <= Reader.totalPages r)%Z
      /\ ((1 <= page <= Reader.totalPages r)%Z -> p = page)
      /\ ((page < 1)%Z -> p = 1%Z)
      /\ ((Reader.totalPages r < page)%Z -> p = Reader.totalPages r)).
Proof.
  cbv zeta. split; [reflexivity|]. split; [reflexivity|]. split; [reflexivity|].
  intro H. unfold Util.clampZ. repeat split; lia.
Qed.

(** Jumps to the pages 7 and -4 of a three-page document land on the pages
    3 and 1. *)
Lemma C10_jumpToHPage_clamps_witness :
  Reader._translateX (Reader._jumpToHPage 7 reader_h) == - (200)
  /\ Reader._translateX (Reader._jumpToHPage (-4) reader_h) == 0
  /\ Util.clampZ 7 1 (Reader.totalPages reader_h) = 3%Z.
Proof.
  destruct (C10_jumpToHPage_clamps 7 reader_h) as (E1 & _ & _ & H).
  destruct (C10_jumpToHPage_clamps (-4) reader_h) as (E2 & _).
  destruct H as (_ & _ & _ & H3); [simpl; lia|].
  split; [rewrite E1; reflexivity|].
  split; [rewrite E2; reflexivity|].
  apply H3. simpl. lia.
Defined.

(** ** GestureEngine: releases *)


Section GestureFacts.
Import GestureEngine.

Variable sqrt : Q -> Q.

Lemma get_absent_mdelete {A} (k : Z) (m : list (Z * A)) :
  Util.get k m = None -> Util.mdelete k m = m.
Proof.
  induction m as [|[k' v] m IH]; simpl; [reflexivity|].
  destruct (Z.eqb k k'); [discriminate|]. intro H. simpl.
  rewrite (IH H). reflexivity.
Qed.




End GestureFacts.

Section ReleaseFacts.
Import GestureEngine.

Variable sqrt : Q -> Q.

Lemma onDown_first (cur : option Q) (e : PointerEvent) (s : Engine) :
  _pointers s = [] ->
  _onDown sqrt cur e s =
    (mkEngine [(pointerId e, mkPointer (clientX e) (clientY e) (clientX e) (clientY e))]
       (clientX e) (clientY e) 0 0 (timeStamp e) RafNull
       (_initPinchDist s) (_initPinchMidX s) (_initPinchMidY s) (_initPinchScale s)
       (_lastTapTime s) (_lastTapX s) (_lastTapY s)
       (TimerPending (clientX e) (clientY e)) false, []).
Proof.
  intro HP. destruct s; cbn [_pointers] in HP. subst. reflexivity.
Qed.



(** C9: a [pointercancel] whose pointer id is not an active contact still
    clears the long-press timer, cancels the momentum frame and emits
    [onPanEnd] (the contacts stay as they are), so that neither a pending
    long press nor a pending momentum frame fires afterwards; a
    [pointermove] or [pointerup] with an unknown id changes nothing and
    emits nothing. *)
Theorem C9_unknown_pointer_ids (e : PointerEvent) (s : Engine) :
  Util.get (pointerId e) (_pointers s) = None ->
  _onMove sqrt e s = (s, [])
  /\ _onUp sqrt e s = (s, [])
  /\ snd (_onCancel e s) = [onPanEnd]
  /\ _longPressTimer (fst (_onCancel e s)) = TimerNull
  /\ _momentumRafId (fst (_onCancel e s)) = RafNull
  /\ _pointers (fst (_onCancel e s)) = _pointers s
  /\ on_long_press_timeout (fst (_onCancel e s)) = (fst (_onCancel e s), [])
  /\ on_frame (fst (_onCancel e s)) = (fst (_onCancel e s), []).
Proof.
  intro H. unfold _onMove, _onUp. rewrite H.
  split; [reflexivity|]. split; [reflexivity|].
  unfold _onCancel. cbn [fst snd]. rewrite (get_absent_mdelete _ _ H).
  repeat split.
Qed.

End ReleaseFacts.





(** Pointer 1 is down with its long-press timer pending; a cancel and a
    move arrive for pointer 2. *)
Lemma C9_unknown_pointer_ids_witness :
  GestureEngine._longPressTimer engine_pressed = GestureEngine.TimerPending 100 100
  /\ snd (GestureEngine._onCancel (GestureEngine.mkEvent 2 0 0 1100) engine_pressed)
     = [GestureEngine.onPanEnd]
  /\ GestureEngine._longPressTimer
       (fst (GestureEngine._onCancel (GestureEngine.mkEvent 2 0 0 1100) engine_pressed))
     = GestureEngine.TimerNull
  /\ GestureEngine._onMove sqrt_on_squares (GestureEngine.mkEvent 2 0 0 1100)
       engine_pressed = (engine_pressed, []).
Proof.
  destruct (C9_unknown_pointer_ids sqrt_on_squares
              (GestureEngine.mkEvent 2 0 0 1100) engine_pressed eq_refl)
    as (H1 & _ & H3 & H4 & _).
  split; [reflexivity|]. split; [exact H3|]. split; [exact H4 | exact H1].
Defined.

(** ** GestureEngine: pinch *)

Section PinchFacts.
Import GestureEngine.

Variable sqrt : Q -> Q.











End PinchFacts.



(** ** GestureEngine: momentum *)

Section MomentumFacts.
Import GestureEngine.

Variable sqrt : Q -> Q.












End MomentumFacts.



(** ** VirtualScroll: eviction *)

Section ScrollFacts.
Import VirtualScroll.

Lemma has_delete (p f : Z) (l : list Z) :
  Util.has p (Util.delete f l) = Util.has p l && negb (Z.eqb f p).
Proof.
  unfold Util.has, Util.delete. induction l as [|a l IH]; [reflexivity|].
  cbn [filter existsb]. destruct (Z.eqb f a) eqn:E; cbn [negb].
  - rewrite IH. apply Z.eqb_eq in E. subst a.
    destruct (Z.eqb p f) eqn:E2; [|reflexivity].
    apply Z.eqb_eq in E2. subst p. rewrite Z.eqb_refl.
    cbn [negb orb]. rewrite andb_false_r. reflexivity.
  - cbn [existsb]. rewrite IH. destruct (Z.eqb p a) eqn:E2; [|reflexivity].
    apply Z.eqb_eq in E2. subst a. rewrite E. reflexivity.
Qed.

Lemma has_add (p q : Z) (l : list Z) :
  Util.has p l = true -> Util.has p (Util.add q l) = true.
Proof.
  intro H. unfold Util.add. destruct (Util.has q l); [exact H|].
  unfold Util.has in *. rewrite existsb_app, H. reflexivity.
Qed.

(** What [_evictPage] does to the set of rendered pages. *)
Lemma evictPage_rendered (f : Z) (v : VirtualScroll) :
  _rendered (_evictPage f v) =
    if Util.has f (_rendered v) && negb (Z.abs (f - _currentPage v) <=? 2)%Z
    then Util.delete f (_rendered v) else _rendered v.
Proof.
  unfold _evictPage. destruct (Util.has f (_rendered v)); cbn [negb andb];
    [|reflexivity].
  destruct (Z.abs (f - _currentPage v) <=? 2)%Z; cbn [negb]; [reflexivity|].
  destruct (Util.has f (canvases v)); reflexivity.
Qed.

Lemma evictPage_currentPage (f : Z) (v : VirtualScroll) :
  _currentPage (_evictPage f v) = _currentPage v.
Proof.
  unfold _evictPage. destruct (negb _); [reflexivity|].
  destruct (Z.abs _ <=? 2)%Z; [reflexivity|].
  destruct (Util.has f (canvases v)); reflexivity.
Qed.

(** A page within 2 of the current page survives [_evictPage]. *)
Lemma evictPage_keeps (f p : Z) (v : VirtualScroll) :
  Util.has p (_rendered v) = true ->
  (Z.abs (p - _currentPage v) <= 2)%Z ->
  Util.has p (_rendered (_evictPage f v)) = true.
Proof.
  intros H D. rewrite evictPage_rendered.
  destruct (Util.has f (_rendered v) && negb (Z.abs (f - _currentPage v) <=? 2)%Z)
    eqn:E; [|exact H].
  rewrite has_delete, H. cbn [andb]. apply andb_true_iff in E. destruct E as [_ E].
  apply negb_true_iff in E. apply Z.leb_gt in E.
  apply negb_true_iff. apply Z.eqb_neq. intro. subst. lia.
Qed.

(** The result of the loop of [_evictFarPages] is at the distance it reports. *)
Lemma farthest_from_dist (nearPage : Z) (l : list Z) :
  forall f0 m0,
    (f0 = -1 /\ m0 = 0 \/ Z.abs (f0 - nearPage) = m0)%Z ->
    let '(f, m) :=
      fold_left
        (fun '(farthest, maxDist) p =>
           let d := Z.abs (p - nearPage) in
           if (d >? maxDist)%Z then (p, d) else (farthest, maxDist))
        l (f0, m0) in
    (f = -1 /\ m = 0 \/ Z.abs (f - nearPage) = m)%Z.
Proof.
  induction l as [|a l IH]; intros f0 m0 H; [exact H|].
  cbn [fold_left]. destruct (Z.abs (a - nearPage) >? m0)%Z; apply IH.
  - right. reflexivity.
  - exact H.
Qed.

Lemma farthest_from_spec (nearPage : Z) (l : list Z) :
  let '(f, m) := farthest_from nearPage l in
  (f = -1 /\ m = 0 \/ Z.abs (f - nearPage) = m)%Z.
Proof.
  unfold farthest_from.
  apply (farthest_from_dist nearPage l (-1) 0). left. split; reflexivity.
Qed.

(** What [_evictFarPages] does to the set of rendered pages: nothing, or
    the removal of one page that is farther than 3 from [nearPage] and
    farther than 2 from the current page, and only when 5 or more pages
    are rendered. *)
Lemma evictFarPages_rendered (nearPage : Z) (v : VirtualScroll) :
  _rendered (_evictFarPages nearPage v) = _rendered v
  \/ exists f,
       _rendered (_evictFarPages nearPage v) = Util.delete f (_rendered v)
       /\ Util.has f (_rendered v) = true
       /\ (Z.abs (f - nearPage) > 3)%Z
       /\ (Z.abs (f - _currentPage v) > 2)%Z
       /\ (5 <= length (_rendered v))%nat.
Proof.
  unfold _evictFarPages.
  destruct (length (_rendered v) <? _maxBuffered)%nat eqn:L; [left; reflexivity|].
  apply Nat.ltb_ge in L. unfold _maxBuffered in L.
  pose proof (farthest_from_spec nearPage (_rendered v)) as F.
  destruct (farthest_from nearPage (_rendered v)) as [f m].
  destruct ((f >? 0)%Z && (m >? 3)%Z) eqn:E; [|left; reflexivity].
  destruct (f <=? totalPages v)%Z; [|left; reflexivity].
  rewrite evictPage_rendered.
  destruct (Util.has f (_rendered v)) eqn:Hf; cbn [andb]; [|left; reflexivity].
  destruct (Z.abs (f - _currentPage v) <=? 2)%Z eqn:D; cbn [negb];
    [left; reflexivity|].
  right. exists f. split; [reflexivity|]. split; [exact Hf|].
  apply andb_true_iff in E. destruct E as [E1 E2].
  apply Z.leb_gt in D. apply Z.gtb_lt in E1, E2.
  destruct F as [[F1 F2]|F]; [lia|]. repeat split; lia.
Qed.

Lemma evictFarPages_currentPage (nearPage : Z) (v : VirtualScroll) :
  _currentPage (_evictFarPages nearPage v) = _currentPage v.
Proof.
  unfold _evictFarPages. destruct (_ <? _)%nat; [reflexivity|].
  destruct (farthest_from nearPage (_rendered v)) as [f m].
  destruct (_ && _); [|reflexivity].
  destruct (_ <=? _)%Z; [apply evictPage_currentPage|reflexivity].
Qed.

Lemma scheduleRender_rendered (q : Z) (v : VirtualScroll) :
  _rendered (_scheduleRender q v) = _rendered v
  \/ exists f,
       _rendered (_scheduleRender q v) = Util.delete f (_rendered v)
       /\ Util.has f (_rendered v) = true
       /\ (Z.abs (f - q) > 3)%Z
       /\ (Z.abs (f - _currentPage v) > 2)%Z
       /\ (5 <= length (_rendered v))%nat.
Proof.
  unfold _scheduleRender.
  destruct (Util.has q (_rendered v) || Util.has q (_pending v));
    [left; reflexivity|].
  unfold _renderSlot.
  match goal with
  | |- context [_evictFarPages q ?w] =>
      pose proof (evictFarPages_rendered q w) as H; set (u := _evictFarPages q w) in *
  end.
  destruct (PdfRenderer.renderPage q (renderer u)) as [r c].
  exact H.
Qed.

Lemma scheduleRender_currentPage (q : Z) (v : VirtualScroll) :
  _currentPage (_scheduleRender q v) = _currentPage v.
Proof.
  unfold _scheduleRender. destruct (_ || _); [reflexivity|].
  unfold _renderSlot.
  match goal with
  | |- context [_evictFarPages q ?w] =>
      pose proof (evictFarPages_currentPage q w) as H; set (u := _evictFarPages q w) in *
  end.
  destruct (PdfRenderer.renderPage q (renderer u)) as [r c].
  exact H.
Qed.

Lemma on_entry_rendered_scheduled (en : Entry) (v : VirtualScroll) :
  isIntersecting en = true ->
  _rendered (fst (on_entry en v)) = _rendered (_scheduleRender (pageNum en) v).
Proof.
  intro I. unfold on_entry. rewrite I.
  destruct (nearMiddle en && _); reflexivity.
Qed.

(** The failure of a render task changes nothing in the scroll manager,
    and a page in the pending set is never scheduled again. *)
Lemma render_failed_keeps_pending (c : nat) (p : Z) (v : VirtualScroll) :
  Util.has p (_pending v) = true ->
  let v' := fst (step (render_failed c) v) in
  _pending v' = _pending v
  /\ _rendered v' = _rendered v
  /\ placeholders v' = placeholders v
  /\ _scheduleRender p v' = v'.
Proof.
  intro H. cbn [step fst]. unfold with_renderer.
  cbn [_pending _rendered placeholders]. repeat split.
  unfold _scheduleRender. cbn [_pending _rendered].
  rewrite H, orb_true_r. reflexivity.
Qed.

(** C1, amended: a rendered page within index distance 2 of the current
    page is never evicted: it stays rendered through every observer entry
    (whether the entry evicts directly or schedules a render that evicts a
    far page), and the settling of a render only adds to the rendered set.
    The budget of 5 is not a bound on the number of rendered pages: it
    only triggers, when a render is scheduled with 5 or more pages
    rendered, the eviction of at most one page, which is farther than 3
    from the scheduled page and farther than 2 from the current page. *)
Theorem C1_protected_pages_are_retained (v : VirtualScroll) :
  (forall en p,
      Util.has p (_rendered v) = true ->
      (Z.abs (p - _currentPage v) <= 2)%Z ->
      Util.has p (_rendered (fst (on_entry en v))) = true)
  /\ (forall ev p,
        Util.has p (_rendered v) = true ->
        match ev with
        | intersect _ => True
        | _ => Util.has p (_rendered (fst (step ev v))) = true
        end)
  /\ (forall q,
        _rendered (_scheduleRender q v) = _rendered v
        \/ exists f,
             _rendered (_scheduleRender q v) = Util.delete f (_rendered v)
             /\ Util.has f (_rendered v) = true
             /\ (Z.abs (f - q) > 3)%Z
             /\ (Z.abs (f - _currentPage v) > 2)%Z
             /\ (5 <= length (_rendered v))%nat).
Proof.
  split; [|split].
  - intros en p H D. destruct (isIntersecting en) eqn:I.
    + rewrite (on_entry_rendered_scheduled en v I).
      destruct (scheduleRender_rendered (pageNum en) v)
        as [E|(f & E & _ & _ & F & _)]; rewrite E; [exact H|].
      rewrite has_delete, H. cbn [andb].
      apply negb_true_iff. apply Z.eqb_neq. intro. subst. lia.
    + unfold on_entry. rewrite I. cbn [fst]. apply evictPage_keeps; assumption.
  - intros ev p H. destruct ev as [entries|c|c|c|c]; [exact I| | | |]; cbn [step].
    + exact H.
    + destruct (PdfRenderer.getPage_rejected c (renderer v)) as [r [q|]]; exact H.
    + destruct (PdfRenderer.task_completed c (renderer v)) as [r [q|]];
        [|exact H].
      cbn [fst on_done with_renderer _rendered]. apply has_add. exact H.
    + exact H.
  - intro q. apply scheduleRender_rendered.
Qed.

End ScrollFacts.

(** C1, as stated, fails: with the pages 1 to 5 rendered and page 3
    current, page 6 becomes visible; the farthest page from 6 is page 1,
    which is within 2 of the current page and is kept, so six pages are
    rendered at once. *)
Lemma C1_six_pages_rendered :
  VirtualScroll._rendered scroll_five = [1; 2; 3; 4; 5]%Z
  /\ VirtualScroll._currentPage scroll_five = 3%Z
  /\ VirtualScroll._rendered
       (VirtualScroll.run events_six
          (VirtualScroll.new_scroll PdfRenderer.new_renderer 10))
     = [1; 2; 3; 4; 5; 6]%Z
  /\ ~ (forall evs,
          (length (VirtualScroll._rendered
                     (VirtualScroll.run evs
                        (VirtualScroll.new_scroll PdfRenderer.new_renderer 10)))
           <= VirtualScroll._maxBuffered)%nat).
Proof.
  split; [reflexivity|]. split; [reflexivity|]. split; [reflexivity|].
  intro H. specialize (H events_six). vm_compute in H. lia.
Qed.

(** Pages 1 to 5 rendered, page 3 current: page 1 leaves the viewport, or
    page 9 is scheduled, and page 1 stays rendered. *)
Lemma C1_protected_pages_are_retained_witness :
  Util.has 1 (VirtualScroll._rendered scroll_five) = true
  /\ Util.has 1
       (VirtualScroll._rendered
          (fst (VirtualScroll.on_entry (VirtualScroll.mkEntry 1 false false)
                  scroll_five))) = true
  /\ Util.has 1
       (VirtualScroll._rendered
          (fst (VirtualScroll.on_entry (VirtualScroll.mkEntry 9 true true)
                  scroll_five))) = true.
Proof.
  destruct (C1_protected_pages_are_retained scroll_five) as (K & _).
  split; [reflexivity|].
  split; apply K; try reflexivity; vm_compute; discriminate.
Defined.

(** C2 on the code: page 3 becomes visible and its render task fails.  The
    slot keeps its placeholder and page 3 is not rendered, but it stays in
    the pending set, so the next visibility event for page 3 changes
    nothing and no render is issued.  When it is the [getPage] promise
    that is rejected, page 3 leaves the pending set and the next
    visibility event issues a second call of [renderPage]. *)
Lemma C2_failed_render_stays_pending :
  let v := VirtualScroll.run events_failed
             (VirtualScroll.new_scroll PdfRenderer.new_renderer 10) in
  let w := VirtualScroll.run events_rejected
             (VirtualScroll.new_scroll PdfRenderer.new_renderer 10) in
  let visible := VirtualScroll.intersect [VirtualScroll.mkEntry 3 true true] in
  VirtualScroll._pending v = [3%Z]
  /\ VirtualScroll._rendered v = []
  /\ Util.has 3 (VirtualScroll.placeholders v) = true
  /\ PdfRenderer.calls (VirtualScroll.renderer v) = [(3%Z, PdfRenderer.Failed)]
  /\ fst (VirtualScroll.step visible v) = v
  /\ VirtualScroll._pending w = []
  /\ PdfRenderer.calls (VirtualScroll.renderer (fst (VirtualScroll.step visible w)))
     = [(3%Z, PdfRenderer.Rejected); (3%Z, PdfRenderer.AwaitingPage)].
Proof. repeat split. Qed.

(** ** PdfRenderer *)

Lemma update_length {A} (n : nat) (a : A) (l : list A) :
  length (PdfRenderer.update n a l) = length l.
Proof.
  revert n. induction l as [|b l IH]; intro n; destruct n;
    cbn [PdfRenderer.update length]; try reflexivity.
  rewrite IH. reflexivity.
Qed.

(** A call of [renderPage] for a page with a recorded task cancels that
    task once, removes the record, and waits for [getPage]. *)
Lemma renderPage_cancels_recorded (p : Z) (t : nat) (r : PdfRenderer.Renderer) :
  Util.get p (PdfRenderer._rendered r) = Some t ->
  PdfRenderer.cancels (fst (PdfRenderer.renderPage p r))
  = PdfRenderer.cancels r ++ [t]
  /\ PdfRenderer._rendered (fst (PdfRenderer.renderPage p r))
     = Util.mdelete p (PdfRenderer._rendered r)
  /\ snd (PdfRenderer.renderPage p r) = length (PdfRenderer.calls r).
Proof.
  intro H. unfold PdfRenderer.renderPage, PdfRenderer.cancelPage. rewrite H.
  cbn [fst snd PdfRenderer.cancels PdfRenderer._rendered PdfRenderer.calls
       PdfRenderer.cancel_task].
  split; [reflexivity|]. split; [reflexivity|].
  destruct (nth_error (PdfRenderer.calls r) t) as [[q []]|]; try reflexivity.
  apply update_length.
Qed.

(** C5 on the code: two calls of [renderPage] for page 1 made before the
    first has recorded its task cancel nothing; once both [getPage]
    promises are fulfilled, two render tasks for page 1 are outstanding
    and only the second is recorded. *)
Lemma C5_two_tasks_outstanding :
  let r := PdfRenderer.exec_all ops_race PdfRenderer.new_renderer in
  PdfRenderer.outstanding 1 r = 2%nat
  /\ PdfRenderer.calls r
     = [(1%Z, PdfRenderer.Rendering); (1%Z, PdfRenderer.Rendering)]
  /\ PdfRenderer.cancels r = []
  /\ PdfRenderer._rendered r = [(1%Z, 1%nat)].
Proof. repeat split. Qed.

(* ================================================================== *)
(** * Further properties of the code *)

Section EngineMore.
Import GestureEngine.
Variable sqrt : Q -> Q.

Lemma get_mdelete_same {A} (k : Z) (m : list (Z * A)) :
  Util.get k (Util.mdelete k m) = None.
Proof.
  induction m as [|[k' v] m IH]; [reflexivity|].
  cbn [Util.mdelete filter fst]. destruct (Z.eqb k k') eqn:E; cbn [negb].
  - exact IH.
  - cbn [Util.get]. rewrite E. exact IH.
Qed.

Lemma get_mdelete_other {A} (k k' : Z) (m : list (Z * A)) :
  k <> k' -> Util.get k' (Util.mdelete k m) = Util.get k' m.
Proof.
  intro N. induction m as [|[k0 v] m IH]; [reflexivity|].
  cbn [Util.mdelete filter fst]. destruct (Z.eqb k k0) eqn:E; cbn [negb Util.get].
  - apply Z.eqb_eq in E. subst k0.
    assert (E' : Z.eqb k' k = false) by (apply Z.eqb_neq; intro; subst; apply N; reflexivity).
    rewrite E'. exact IH.
  - destruct (Z.eqb k' k0); [reflexivity|exact IH].
Qed.

Ltac engine_unfold :=
  cbv beta iota zeta delta
    [_cancelMomentum _clearLongPress _startMomentum with_raf with_timer
     with_pointers with_pinch with_pan with_tap with_fired
     _pointers _lastPanX _lastPanY _panVelX _panVelY _panTimestamp
     _momentumRafId _initPinchDist _initPinchMidX _initPinchMidY
     _initPinchScale _lastTapTime _lastTapX _lastTapY _longPressTimer
     _longPressFired fst snd].

Ltac split_ifs :=
  repeat match goal with
         | |- context [if ?b then _ else _] => destruct b
         | |- context [match ?t with TimerNull => _ | _ => _ end] => destruct t
         end.

Lemma onUp_pointers (e : PointerEvent) (s : Engine) :
  _pointers (fst (_onUp sqrt e s)) = Util.mdelete (pointerId e) (_pointers s).
Proof.
  unfold _onUp. destruct (Util.get (pointerId e) (_pointers s)) as [pt|] eqn:G.
  - destruct s. engine_unfold.
    match goal with |- context [Util.values ?m] => destruct (Util.values m) as [|a [|b l]] end;
      split_ifs; reflexivity.
  - cbn [fst]. symmetry. apply get_absent_mdelete. exact G.
Qed.

Lemma onCancel_pointers (e : PointerEvent) (s : Engine) :
  _pointers (fst (_onCancel e s)) = Util.mdelete (pointerId e) (_pointers s).
Proof. reflexivity. Qed.

(** X1: after [_onUp] or [_onCancel] for a pointer id, that id is no longer
    an active contact (whether or not it was one before), and every other
    contact is kept as it was. *)
Theorem X1_released_contact_is_removed (e : PointerEvent) (s : Engine) :
  Util.get (pointerId e) (_pointers (fst (_onUp sqrt e s))) = None
  /\ Util.get (pointerId e) (_pointers (fst (_onCancel e s))) = None
  /\ (forall k, k <> pointerId e ->
        Util.get k (_pointers (fst (_onUp sqrt e s))) = Util.get k (_pointers s)
        /\ Util.get k (_pointers (fst (_onCancel e s))) = Util.get k (_pointers s)).
Proof.
  rewrite onUp_pointers, onCancel_pointers.
  split; [apply get_mdelete_same|]. split; [apply get_mdelete_same|].
  intros k N. split; apply get_mdelete_other; intro; subst; apply N; reflexivity.
Qed.

Lemma values_length {A} (m : list (Z * A)) : length (Util.values m) = length m.
Proof. apply length_map. Qed.

Lemma set_length {A} (k : Z) (v w : A) (m : list (Z * A)) :
  Util.get k m = Some w -> length (Util.set k v m) = length m.
Proof.
  induction m as [|[k' v'] m IH]; [discriminate|].
  cbn [Util.get Util.set]. destruct (Z.eqb k k'); [reflexivity|].
  intro H. cbn [length]. rewrite (IH H). reflexivity.
Qed.

(** What [_onDown] leaves of the timers. *)
Lemma onDown_timers (cur : option Q) (e : PointerEvent) (s : Engine) :
  _momentumRafId (fst (_onDown sqrt cur e s)) = RafNull
  /\ (forall lx ly,
        _longPressTimer (fst (_onDown sqrt cur e s)) = TimerPending lx ly ->
        length (_pointers (fst (_onDown sqrt cur e s))) = 1%nat).
Proof.
  destruct s. unfold _onDown. engine_unfold.
  match goal with
  | |- context [Util.values ?m] =>
      pose proof (values_length m) as L;
      destruct (Util.values m) as [|a [|b [|c l]]]
  end; engine_unfold; (split; [reflexivity|]); intros lx ly H;
    try discriminate H.
  symmetry. exact L.
Qed.

Lemma onMove_timers (e : PointerEvent) (s : Engine) :
  _onMove sqrt e s = (s, [])
  \/ (exists pt, Util.get (pointerId e) (_pointers s) = Some pt)
     /\ length (_pointers (fst (_onMove sqrt e s))) = length (_pointers s)
     /\ _momentumRafId (fst (_onMove sqrt e s)) = _momentumRafId s
     /\ (_longPressTimer (fst (_onMove sqrt e s)) = _longPressTimer s
         \/ _longPressTimer (fst (_onMove sqrt e s)) = TimerNull).
Proof.
  unfold _onMove. destruct (Util.get (pointerId e) (_pointers s)) as [pt|] eqn:G;
    [right|left; reflexivity].
  split; [exists pt; reflexivity|].
  destruct s. cbn [_pointers] in G. engine_unfold.
  match goal with
  | |- context [Util.values ?m] =>
      pose proof (set_length (pointerId e)
                    (mkPointer (clientX e) (clientY e) (startX pt) (startY pt))
                    pt _ G) as L;
      destruct (Util.values m) as [|a [|b [|c l]]]
  end; split_ifs; engine_unfold; (split; [exact L|]); split; auto.
Qed.

Lemma values_nil {A} (m : list (Z * A)) : Util.values m = [] -> m = [].
Proof. destruct m; [reflexivity|discriminate]. Qed.

Lemma onUp_timers (e : PointerEvent) (s : Engine) :
  _onUp sqrt e s = (s, [])
  \/ (exists pt, Util.get (pointerId e) (_pointers s) = Some pt)
     /\ _longPressTimer (fst (_onUp sqrt e s)) = TimerNull
     /\ (_momentumRafId (fst (_onUp sqrt e s)) = _momentumRafId s
         \/ _pointers (fst (_onUp sqrt e s)) = []).
Proof.
  unfold _onUp. destruct (Util.get (pointerId e) (_pointers s)) as [pt|] eqn:G;
    [right|left; reflexivity].
  split; [exists pt; reflexivity|].
  destruct s. cbn [_pointers] in G. engine_unfold.
  match goal with
  | |- context [Util.values ?m] =>
      destruct (Util.values m) as [|a [|b l]] eqn:EV
  end; split_ifs; engine_unfold; (split; [reflexivity|]);
    try (left; reflexivity); right; apply values_nil; exact EV.
Qed.

Lemma handle_keeps_timers_match (i : Input) (s : Engine) :
  Measure.timers_match_contacts s ->
  Measure.timers_match_contacts (fst (handle sqrt i s)).
Proof.
  intro I. pose proof I as [T R].
  destruct i as [cur e|e|e|e| |]; cbn [handle].
  - destruct (onDown_timers cur e s) as [A B]. split; [exact B|].
    intros vx vy H. rewrite A in H. discriminate H.
  - destruct (onMove_timers e s) as [E|([pt G] & L & M & [Tm|Tm])].
    + rewrite E. split; assumption.
    + split.
      * intros lx ly H. rewrite L. rewrite Tm in H. apply (T lx ly H).
      * intros vx vy H. rewrite M in H. rewrite (R vx vy H) in G. discriminate G.
    + split.
      * intros lx ly H. rewrite Tm in H. discriminate H.
      * intros vx vy H. rewrite M in H. rewrite (R vx vy H) in G. discriminate G.
  - destruct (onUp_timers e s) as [E|([pt G] & Tm & [M|P])].
    + rewrite E. split; assumption.
    + split.
      * intros lx ly H. rewrite Tm in H. discriminate H.
      * intros vx vy H. rewrite M in H. rewrite (R vx vy H) in G. discriminate G.
    + split.
      * intros lx ly H. rewrite Tm in H. discriminate H.
      * intros vx vy H. exact P.
  - unfold Measure.timers_match_contacts, _onCancel. engine_unfold.
    split; intros a b H; discriminate H.
  - unfold on_long_press_timeout.
    destruct (_longPressTimer s) eqn:E; cbn [fst]; try exact I.
    unfold Measure.timers_match_contacts. engine_unfold. split.
    + intros a b H. discriminate H.
    + exact R.
  - unfold on_frame.
    destruct (_momentumRafId s) as [|vx vy|] eqn:E; cbn [fst]; try exact I.
    unfold Measure.timers_match_contacts.
    destruct (step vx vy) as [[vx' vy'] []]; engine_unfold;
      (split; [exact T|]); intros a b H;
      [apply (R vx vy eq_refl) | discriminate H].
Qed.

Lemma run_fst_cons (i : Input) (ins : list Input) (s : Engine) :
  fst (run sqrt (i :: ins) s) = fst (run sqrt ins (fst (handle sqrt i s))).
Proof.
  cbn [run]. destruct (handle sqrt i s) as [s1 c1]. cbn [fst].
  destruct (run sqrt ins s1) as [s2 c2]. reflexivity.
Qed.

(** X2: on an engine driven by any sequence of inputs, a long-press
    timeout is pending only while exactly one contact is active and a
    momentum frame is pending only while no contact is active.  So an
    animation frame emits nothing while a finger is down, and the
    long-press timeout emits nothing unless exactly one finger is down. *)
Theorem X2_timers_match_contacts_always (ins : list Input) (s : Engine) :
  Measure.timers_match_contacts s ->
  Measure.timers_match_contacts (fst (run sqrt ins s))
  /\ (forall e,
        Util.get (pointerId e) (_pointers (fst (run sqrt ins s))) <> None ->
        snd (on_frame (fst (run sqrt ins s))) = [])
  /\ (length (_pointers (fst (run sqrt ins s))) <> 1%nat ->
      snd (on_long_press_timeout (fst (run sqrt ins s))) = []).
Proof.
  intro H.
  assert (I : Measure.timers_match_contacts (fst (run sqrt ins s))).
  { revert s H. induction ins as [|i ins IH]; intros s H; [exact H|].
    rewrite run_fst_cons. apply IH. apply handle_keeps_timers_match. exact H. }
  split; [exact I|]. destruct I as [T R]. split.
  - intros e G. unfold on_frame.
    destruct (_momentumRafId (fst (run sqrt ins s))) as [|vx vy|] eqn:E;
      try reflexivity.
    rewrite (R vx vy eq_refl) in G. exfalso. apply G. reflexivity.
  - intro L. unfold on_long_press_timeout.
    destruct (_longPressTimer (fst (run sqrt ins s))) as [|lx ly|] eqn:E;
      try reflexivity.
    exfalso. apply L. apply (T lx ly eq_refl).
Qed.



(** [_onMove] with one active contact. *)
Lemma onMove_one (e : PointerEvent) (pt0 : Pointer) (s : Engine) :
  _pointers s = [(pointerId e, pt0)] ->
  _onMove sqrt e s =
    let dx := clientX e - _lastPanX s in
    let dy := clientY e - _lastPanY s in
    let dt := Util.or_default (timeStamp e - _panTimestamp s) 16 in
    (mkEngine
       [(pointerId e, mkPointer (clientX e) (clientY e) (startX pt0) (startY pt0))]
       (clientX e) (clientY e)
       ((6 # 10) * (dx / dt * 16) + (1 - (6 # 10)) * _panVelX s)
       ((6 # 10) * (dy / dt * 16) + (1 - (6 # 10)) * _panVelY s)
       (timeStamp e) (_momentumRafId s)
       (_initPinchDist s) (_initPinchMidX s) (_initPinchMidY s)
       (_initPinchScale s) (_lastTapTime s) (_lastTapX s) (_lastTapY s)
       (match _longPressTimer s with
        | TimerNull => TimerNull
        | t =>
            if Util.Qlt_bool 8 (Qabs (clientX e - startX pt0))
               || Util.Qlt_bool 8 (Qabs (clientY e - startY pt0))
            then TimerNull else t
        end)
       (_longPressFired s),
     [onPan dx dy true]).
Proof.
  intro HP. destruct s. cbn [_pointers] in HP. subst.
  unfold _onMove. cbn [_pointers Util.get]. rewrite Z.eqb_refl.
  cbn [Util.set]. rewrite Z.eqb_refl. engine_unfold.
  cbn [Util.values map snd startX startY].
  split_ifs; reflexivity.
Qed.

Lemma run_snd_cons (i : Input) (ins : list Input) (s : Engine) :
  snd (run sqrt (i :: ins) s)
  = snd (handle sqrt i s) ++ snd (run sqrt ins (fst (handle sqrt i s))).
Proof.
  cbn [run]. destruct (handle sqrt i s) as [s1 c1]. cbn [fst snd].
  destruct (run sqrt ins s1) as [s2 c2]. reflexivity.
Qed.

(** X3: a press on an engine without contacts, the long-press timeout and
    then the release emit [onLongPress] at the coordinates of the press
    followed by [onPanEnd] only, wherever the release happens: no tap, no
    double tap, no momentum, and the tap history is untouched. *)
Theorem X3_long_press_suppresses_tap
    (cur : option Q) (d u : PointerEvent) (s : Engine) :
  _pointers s = [] ->
  pointerId u = pointerId d ->
  let r := run sqrt [pointerdown cur d; longPressTimeout; pointerup u] s in
  snd r = [onLongPress (clientX d) (clientY d); onPanEnd]
  /\ _lastTapTime (fst r) = _lastTapTime s
  /\ _lastTapX (fst r) = _lastTapX s
  /\ _lastTapY (fst r) = _lastTapY s
  /\ _momentumRafId (fst r) = RafNull
  /\ _pointers (fst r) = [].
Proof.
  intros HP Hid. cbv zeta. cbn [run handle].
  rewrite (onDown_first sqrt cur d s HP). cbv beta iota.
  unfold on_long_press_timeout. cbn [_longPressTimer]. cbv beta iota.
  unfold _onUp, with_timer, with_fired. engine_unfold.
  cbn [Util.get]. rewrite Hid, Z.eqb_refl.
  cbn [Util.mdelete filter fst]. rewrite Z.eqb_refl.
  cbn [negb Util.values map app]. repeat split.
Qed.


Lemma pan_dx_app (a b : list Callback) :
  Measure.pan_dx (a ++ b) == Measure.pan_dx a + Measure.pan_dx b.
Proof.
  induction a as [|c a IH]; cbn [app Measure.pan_dx]; [ring|].
  destruct c; rewrite ?IH; ring.
Qed.

Lemma pan_dy_app (a b : list Callback) :
  Measure.pan_dy (a ++ b) == Measure.pan_dy a + Measure.pan_dy b.
Proof.
  induction a as [|c a IH]; cbn [app Measure.pan_dy]; [ring|].
  destruct c; rewrite ?IH; ring.
Qed.

Lemma last_cons {A} (l : list A) :
  forall a d, last (a :: l) d = last l a.
Proof.
  induction l as [|b l IH]; intros a d; [reflexivity|].
  change (last (a :: b :: l) d) with (last (b :: l) d).
  rewrite (IH b d), (IH b a). reflexivity.
Qed.

Lemma moves_telescope (ms : list PointerEvent) :
  forall (s : Engine) (id : Z) (pt0 : Pointer),
    _pointers s = [(id, pt0)] ->
    (forall m, In m ms -> pointerId m = id) ->
    let r := run sqrt (map pointermove ms) s in
    Measure.pan_dx (snd r) == last (map clientX ms) (_lastPanX s) - _lastPanX s
    /\ Measure.pan_dy (snd r) == last (map clientY ms) (_lastPanY s) - _lastPanY s
    /\ length (snd r) = length ms.
Proof.
  induction ms as [|m ms IH]; intros s id pt0 HP Hid; cbv zeta.
  - cbn [map run snd last Measure.pan_dx Measure.pan_dy length].
    repeat split; ring.
  - assert (Hm : pointerId m = id) by (apply Hid; left; reflexivity).
    assert (HP' : _pointers s = [(pointerId m, pt0)]) by (rewrite Hm; exact HP).
    cbn [map]. rewrite run_snd_cons. cbn [handle].
    rewrite (onMove_one m pt0 s HP'). cbv beta iota zeta. cbn [fst snd].
    match goal with
    | |- context [run sqrt (map pointermove ms) ?s1] =>
        destruct (IH s1 (pointerId m)
                    (mkPointer (clientX m) (clientY m) (startX pt0) (startY pt0))
                    eq_refl) as (Hx & Hy & Hl)
    end.
    { intros m' Hin. rewrite Hm. apply Hid. right. exact Hin. }
    cbn [_lastPanX _lastPanY] in Hx, Hy.
    cbn [app Measure.pan_dx Measure.pan_dy length].
    rewrite Hx, Hy, Hl.
    rewrite (last_cons (map clientX ms) (clientX m) (_lastPanX s)).
    rewrite (last_cons (map clientY ms) (clientY m) (_lastPanY s)).
    repeat split; ring.
Qed.

(** X5: during a one-finger drag every move emits one [onPan], and the
    deltas add up to the displacement: their sum is the last position
    minus the position of the press, on each axis. *)
Theorem X5_pan_deltas_add_up_to_the_displacement
    (cur : option Q) (d : PointerEvent) (ms : list PointerEvent) (s : Engine) :
  _pointers s = [] ->
  (forall m, In m ms -> pointerId m = pointerId d) ->
  let cbs := snd (run sqrt (pointerdown cur d :: map pointermove ms) s) in
  Measure.pan_dx cbs == last (map clientX ms) (clientX d) - clientX d
  /\ Measure.pan_dy cbs == last (map clientY ms) (clientY d) - clientY d
  /\ length cbs = length ms.
Proof.
  intros HP Hid. cbv zeta. rewrite run_snd_cons. cbn [handle].
  rewrite (onDown_first sqrt cur d s HP). cbn [fst snd app].
  match goal with
  | |- context [run sqrt (map pointermove ms) ?s1] =>
      apply (moves_telescope ms s1 (pointerId d)
               (mkPointer (clientX d) (clientY d) (clientX d) (clientY d))
               eq_refl Hid)
  end.
Qed.

(** X6: when one of two fingers is lifted, [onPinchEnd] is the only
    callback, the velocity is reset to zero and the remaining finger
    becomes the pan reference: its next move emits [onPan] with the delta
    from its own last position, whichever of the two fingers was lifted. *)
Theorem X6_pinch_end_resets_pan_reference
    (i j : Z) (pi pj : Pointer) (u m : PointerEvent) (s : Engine) :
  _pointers s = [(i, pi); (j, pj)] ->
  i <> j ->
  (pointerId u = j -> pointerId m = i ->
     let r := _onUp sqrt u s in
     snd r = [onPinchEnd]
     /\ _pointers (fst r) = [(i, pi)]
     /\ _panVelX (fst r) = 0 /\ _panVelY (fst r) = 0
     /\ snd (_onMove sqrt m (fst r))
        = [onPan (clientX m - x pi) (clientY m - y pi) true])
  /\ (pointerId u = i -> pointerId m = j ->
        let r := _onUp sqrt u s in
        snd r = [onPinchEnd]
        /\ _pointers (fst r) = [(j, pj)]
        /\ _panVelX (fst r) = 0 /\ _panVelY (fst r) = 0
        /\ snd (_onMove sqrt m (fst r))
           = [onPan (clientX m - x pj) (clientY m - y pj) true]).
Proof.
  intros HP N.
  assert (Eij : (i =? j)%Z = false) by (apply Z.eqb_neq; exact N).
  assert (Eji : (j =? i)%Z = false) by (rewrite Z.eqb_sym; exact Eij).
  destruct s. cbn [_pointers] in HP. subst. split; intros Hu Hm; cbv zeta.
  - assert (U : _onUp sqrt u
                  (mkEngine [(i, pi); (j, pj)] _lastPanX0 _lastPanY0 _panVelX0
                     _panVelY0 _panTimestamp0 _momentumRafId0 _initPinchDist0
                     _initPinchMidX0 _initPinchMidY0 _initPinchScale0
                     _lastTapTime0 _lastTapX0 _lastTapY0 _longPressTimer0
                     _longPressFired0)
                = (mkEngine [(i, pi)] (x pi) (y pi) 0 0 _panTimestamp0
                     _momentumRafId0 _initPinchDist0 _initPinchMidX0
                     _initPinchMidY0 _initPinchScale0 _lastTapTime0 _lastTapX0
                     _lastTapY0 TimerNull _longPressFired0, [onPinchEnd])).
    { unfold _onUp. cbn [_pointers Util.get]. rewrite Hu, Eji, Z.eqb_refl.
      engine_unfold. cbn [Util.mdelete filter fst]. rewrite Eji, Z.eqb_refl.
      cbn [negb Util.values map snd]. reflexivity. }
    rewrite U. cbn [fst snd _pointers _panVelX _panVelY].
    repeat split.
    rewrite (onMove_one m pi) by (cbn [_pointers]; rewrite Hm; reflexivity).
    reflexivity.
  - assert (U : _onUp sqrt u
                  (mkEngine [(i, pi); (j, pj)] _lastPanX0 _lastPanY0 _panVelX0
                     _panVelY0 _panTimestamp0 _momentumRafId0 _initPinchDist0
                     _initPinchMidX0 _initPinchMidY0 _initPinchScale0
                     _lastTapTime0 _lastTapX0 _lastTapY0 _longPressTimer0
                     _longPressFired0)
                = (mkEngine [(j, pj)] (x pj) (y pj) 0 0 _panTimestamp0
                     _momentumRafId0 _initPinchDist0 _initPinchMidX0
                     _initPinchMidY0 _initPinchScale0 _lastTapTime0 _lastTapX0
                     _lastTapY0 TimerNull _longPressFired0, [onPinchEnd])).
    { unfold _onUp. cbn [_pointers Util.get]. rewrite Hu, Z.eqb_refl.
      engine_unfold. cbn [Util.mdelete filter fst]. rewrite Eij, Z.eqb_refl.
      cbn [negb Util.values map snd]. reflexivity. }
    rewrite U. cbn [fst snd _pointers _panVelX _panVelY].
    repeat split.
    rewrite (onMove_one m pj) by (cbn [_pointers]; rewrite Hm; reflexivity).
    reflexivity.
Qed.

(** X7: on a one-finger move the tracked velocity becomes
    [0.6 * v_now + 0.4 * v_before], where [v_now] is the delta scaled to a
    16 ms frame; it therefore lies between the two.  The time difference
    used as divisor is never zero: a move with the time stamp of the
    previous one counts as 16 ms, so [v_now] is the delta itself. *)
Theorem X7_velocity_is_smoothed (e : PointerEvent) (pt0 : Pointer) (s : Engine) :
  _pointers s = [(pointerId e, pt0)] ->
  let dt := Util.or_default (timeStamp e - _panTimestamp s) 16 in
  let ix := (clientX e - _lastPanX s) / dt * 16 in
  let iy := (clientY e - _lastPanY s) / dt * 16 in
  let s' := fst (_onMove sqrt e s) in
  _panVelX s' == (6 # 10) * ix + (4 # 10) * _panVelX s
  /\ _panVelY s' == (6 # 10) * iy + (4 # 10) * _panVelY s
  /\ Qmin ix (_panVelX s) <= _panVelX s' <= Qmax ix (_panVelX s)
  /\ Qmin iy (_panVelY s) <= _panVelY s' <= Qmax iy (_panVelY s)
  /\ ~ dt == 0
  /\ (timeStamp e == _panTimestamp s ->
      ix == clientX e - _lastPanX s /\ iy == clientY e - _lastPanY s).
Proof.
  intro HP. cbv zeta. rewrite (onMove_one e pt0 s HP). cbv beta iota zeta.
  cbn [fst _panVelX _panVelY].
  set (dt := Util.or_default (timeStamp e - _panTimestamp s) 16).
  set (ix := (clientX e - _lastPanX s) / dt * 16).
  set (iy := (clientY e - _lastPanY s) / dt * 16).
  assert (B : forall a b : Q,
             Qmin a b <= (6 # 10) * a + (1 - (6 # 10)) * b
             /\ (6 # 10) * a + (1 - (6 # 10)) * b <= Qmax a b).
  { intros a b. split.
    - apply Q.min_le_iff. destruct (Qlt_le_dec a b); [left|right]; lra.
    - apply Q.max_le_iff. destruct (Qlt_le_dec a b); [right|left]; lra. }
  split; [ring|]. split; [ring|]. split; [apply B|]. split; [apply B|].
  assert (NZ : ~ dt == 0).
  { unfold dt, Util.or_default.
    destruct (Qeq_bool (timeStamp e - _panTimestamp s) 0) eqn:E.
    - discriminate.
    - intro H. apply Qeq_bool_iff in H. congruence. }
  split; [exact NZ|].
  intro T. assert (D : dt == 16).
  { unfold dt, Util.or_default.
    assert (Z0 : Qeq_bool (timeStamp e - _panTimestamp s) 0 = true)
      by (apply Qeq_bool_iff; lra).
    rewrite Z0. reflexivity. }
  unfold ix, iy. rewrite D. split; field.
Qed.

End EngineMore.

Section RendererMore.

Lemma cancel_task_rendered (t : nat) (r : PdfRenderer.Renderer) :
  PdfRenderer._rendered (PdfRenderer.cancel_task t r) = PdfRenderer._rendered r.
Proof. reflexivity. Qed.

Lemma cancelPage_rendered (p : Z) (r : PdfRenderer.Renderer) :
  PdfRenderer._rendered (PdfRenderer.cancelPage p r)
  = Util.mdelete p (PdfRenderer._rendered r).
Proof.
  unfold PdfRenderer.cancelPage.
  destruct (Util.get p (PdfRenderer._rendered r)); reflexivity.
Qed.

(** X8: [cancelPage] for a page without a record changes nothing; after
    [cancelPage] the page has no record, so a second [cancelPage] for the
    same page is without effect and no task is cancelled twice. *)
Theorem X8_cancelPage_is_idempotent (p : Z) (r : PdfRenderer.Renderer) :
  (Util.get p (PdfRenderer._rendered r) = None -> PdfRenderer.cancelPage p r = r)
  /\ Util.get p (PdfRenderer._rendered (PdfRenderer.cancelPage p r)) = None
  /\ PdfRenderer.cancelPage p (PdfRenderer.cancelPage p r)
     = PdfRenderer.cancelPage p r.
Proof.
  assert (A : forall r', Util.get p (PdfRenderer._rendered r') = None ->
                         PdfRenderer.cancelPage p r' = r').
  { intros r' H. unfold PdfRenderer.cancelPage. rewrite H.
    rewrite (get_absent_mdelete _ _ H). destruct r'. reflexivity. }
  assert (B : Util.get p (PdfRenderer._rendered (PdfRenderer.cancelPage p r)) = None).
  { rewrite cancelPage_rendered. apply get_mdelete_same. }
  split; [apply A|]. split; [exact B|]. apply A. exact B.
Qed.

Lemma nth_error_update_same {A} (l : list A) :
  forall n a, (n < length l)%nat -> nth_error (PdfRenderer.update n a l) n = Some a.
Proof.
  induction l as [|b l IH]; intros n a H; [cbn in H; lia|].
  destruct n; cbn [PdfRenderer.update nth_error]; [reflexivity|].
  apply IH. cbn in H. lia.
Qed.

Lemma nth_error_update_other {A} (l : list A) :
  forall n m a, n <> m -> nth_error (PdfRenderer.update n a l) m = nth_error l m.
Proof.
  induction l as [|b l IH]; intros n m a H.
  - destruct n; reflexivity.
  - destruct n, m; cbn [PdfRenderer.update nth_error]; try reflexivity.
    + exfalso. apply H. reflexivity.
    + apply IH. intro. subst. apply H. reflexivity.
Qed.

Lemma cancel_task_settles (t : nat) (r : PdfRenderer.Renderer) :
  Measure.settled t (PdfRenderer.cancel_task t r).
Proof.
  unfold Measure.settled, PdfRenderer.cancel_task. cbn [PdfRenderer.calls]. intro q.
  destruct (nth_error (PdfRenderer.calls r) t) as [[p st]|] eqn:E.
  - destruct st; try (rewrite E; intro H; discriminate H).
    rewrite nth_error_update_same.
    + intro H. discriminate H.
    + apply nth_error_Some. rewrite E. discriminate.
  - rewrite E. discriminate.
Qed.

Lemma cancel_task_keeps_settled (t u : nat) (r : PdfRenderer.Renderer) :
  Measure.settled t r -> Measure.settled t (PdfRenderer.cancel_task u r).
Proof.
  unfold Measure.settled, PdfRenderer.cancel_task. cbn [PdfRenderer.calls]. intros H q.
  destruct (nth_error (PdfRenderer.calls r) u) as [[p st]|] eqn:E; [|apply H].
  destruct st; try apply H.
  destruct (Nat.eq_dec u t) as [->|N].
  - rewrite nth_error_update_same.
    + intro K. discriminate K.
    + apply nth_error_Some. rewrite E. discriminate.
  - rewrite nth_error_update_other by exact N. apply H.
Qed.

Lemma cancelPage_keeps_settled (t : nat) (p : Z) (r : PdfRenderer.Renderer) :
  Measure.settled t r -> Measure.settled t (PdfRenderer.cancelPage p r).
Proof.
  intro H. unfold PdfRenderer.cancelPage.
  destruct (Util.get p (PdfRenderer._rendered r)) as [u|]; unfold Measure.settled in *;
    cbn [PdfRenderer.calls]; [|exact H].
  apply (cancel_task_keeps_settled t u r H).
Qed.

Lemma get_absent_not_in {A} (k : Z) (m : list (Z * A)) :
  ~ In k (map fst m) -> Util.get k m = None.
Proof.
  induction m as [|[k' v] m IH]; [reflexivity|].
  cbn [map fst In Util.get]. intro H.
  destruct (Z.eqb k k') eqn:E.
  - apply Z.eqb_eq in E. exfalso. apply H. left. symmetry. exact E.
  - apply IH. intro K. apply H. right. exact K.
Qed.

Lemma cancel_each (m : list (Z * nat)) :
  NoDup (map fst m) ->
  forall r,
    PdfRenderer._rendered r = m ->
    let r' := fold_left (fun r num => PdfRenderer.cancelPage num r) (map fst m) r in
    PdfRenderer.cancels r' = PdfRenderer.cancels r ++ map snd m
    /\ (forall t, Measure.settled t r \/ In t (map snd m) -> Measure.settled t r').
Proof.
  induction m as [|[k t] m IH]; intros ND r HR; cbv zeta.
  - cbn [map fold_left]. rewrite app_nil_r. split; [reflexivity|].
    intros t [H|[]]. exact H.
  - cbn [map fst snd fold_left]. inversion ND as [|? ? NI ND']; subst.
    assert (G : Util.get k (PdfRenderer._rendered r) = Some t).
    { rewrite HR. cbn [Util.get]. rewrite Z.eqb_refl. reflexivity. }
    assert (R1 : PdfRenderer._rendered (PdfRenderer.cancelPage k r) = m).
    { rewrite cancelPage_rendered, HR. cbn [Util.mdelete filter fst].
      rewrite Z.eqb_refl. cbn [negb].
      apply (get_absent_mdelete k m). apply get_absent_not_in. exact NI. }
    destruct (IH ND' (PdfRenderer.cancelPage k r) R1) as [C S].
    split.
    + rewrite C. unfold PdfRenderer.cancelPage at 1. rewrite G.
      cbn [PdfRenderer.cancels PdfRenderer.cancel_task].
      rewrite <- app_assoc. reflexivity.
    + intros u [H|[H|H]]; apply S.
      * left. apply cancelPage_keeps_settled. exact H.
      * left. subst u. unfold PdfRenderer.cancelPage. rewrite G.
        unfold Measure.settled. cbn [PdfRenderer.calls].
        apply (cancel_task_settles t r).
      * right. exact H.
Qed.

(** X9: [cancelAll] calls [cancel()] on every recorded task exactly once,
    in the order of the records, leaves no record, and afterwards none of
    the tasks that were recorded is running. *)
Theorem X9_cancelAll_cancels_each_recorded_task_once (r : PdfRenderer.Renderer) :
  NoDup (map fst (PdfRenderer._rendered r)) ->
  PdfRenderer.cancels (RendererTeardown.cancelAll r)
  = PdfRenderer.cancels r ++ map snd (PdfRenderer._rendered r)
  /\ PdfRenderer._rendered (RendererTeardown.cancelAll r) = []
  /\ (forall p t q,
        In (p, t) (PdfRenderer._rendered r) ->
        nth_error (PdfRenderer.calls (RendererTeardown.cancelAll r)) t
        <> Some (q, PdfRenderer.Rendering)).
Proof.
  intro ND. destruct (cancel_each (PdfRenderer._rendered r) ND r eq_refl) as [C S].
  unfold RendererTeardown.cancelAll. cbn [PdfRenderer.cancels PdfRenderer._rendered
    PdfRenderer.calls].
  split; [exact C|]. split; [reflexivity|].
  intros p t q H. apply (S t). right.
  change t with (snd (p, t)). apply in_map. exact H.
Qed.

End RendererMore.

Section ScrollMore.
Import VirtualScroll.

Lemma has_add_iff (p q : Z) (l : list Z) :
  Util.has p (Util.add q l) = Util.has p l || Z.eqb p q.
Proof.
  unfold Util.add. destruct (Util.has q l) eqn:H.
  - destruct (Z.eqb p q) eqn:E; [|rewrite orb_false_r; reflexivity].
    apply Z.eqb_eq in E. subst. rewrite H. reflexivity.
  - unfold Util.has. rewrite existsb_app. cbn [existsb].
    rewrite orb_false_r. reflexivity.
Qed.

Lemma filter_update_count {A} (f : A -> bool) (l : list A) :
  forall c old new,
    nth_error l c = Some old ->
    (length (filter f (PdfRenderer.update c new l)) + (if f old then 1 else 0)
     = length (filter f l) + (if f new then 1 else 0))%nat.
Proof.
  induction l as [|a l IH]; intros c old new H.
  - destruct c; discriminate H.
  - destruct c; cbn [nth_error] in H.
    + injection H as ->. cbn [PdfRenderer.update filter].
      destruct (f old), (f new); cbn [length]; lia.
    + cbn [PdfRenderer.update filter]. specialize (IH c old new H).
      destruct (f a); cbn [length]; lia.
Qed.

Lemma live_cancel_task (p : Z) (t : nat) (r : PdfRenderer.Renderer) :
  (Measure.live p (PdfRenderer.cancel_task t r) <= Measure.live p r)%nat.
Proof.
  unfold Measure.live, PdfRenderer.cancel_task. cbn [PdfRenderer.calls].
  destruct (nth_error (PdfRenderer.calls r) t) as [[q st]|] eqn:E; [|lia].
  destruct st; try lia.
  pose proof (filter_update_count (Measure.is_live p) _ t _
                (q, PdfRenderer.Cancelled) E) as H.
  cbn [Measure.is_live] in H. destruct (Z.eqb q p); lia.
Qed.

Lemma live_cancelPage (p q : Z) (r : PdfRenderer.Renderer) :
  (Measure.live p (PdfRenderer.cancelPage q r) <= Measure.live p r)%nat.
Proof.
  unfold PdfRenderer.cancelPage.
  destruct (Util.get q (PdfRenderer._rendered r)) as [t|].
  - apply (live_cancel_task p t r).
  - unfold Measure.live. cbn [PdfRenderer.calls]. lia.
Qed.

Lemma live_renderPage (p q : Z) (r : PdfRenderer.Renderer) :
  Measure.live p (fst (PdfRenderer.renderPage q r))
  = (Measure.live p (PdfRenderer.cancelPage q r)
     + (if Z.eqb q p then 1 else 0))%nat.
Proof.
  unfold PdfRenderer.renderPage, Measure.live. cbn [fst PdfRenderer.calls].
  rewrite filter_app, length_app. cbn [filter Measure.is_live].
  destruct (Z.eqb q p); reflexivity.
Qed.

(** The invariant survives whatever lowers the live calls and keeps the
    pending pages. *)
Lemma one_live_weaken (v v' : VirtualScroll) :
  (forall p, (Measure.live p (renderer v') <= Measure.live p (renderer v))%nat) ->
  (forall p, Util.has p (_pending v) = true -> Util.has p (_pending v') = true) ->
  Measure.one_live_render v -> Measure.one_live_render v'.
Proof.
  intros L P I p. destruct (I p) as [A B]. specialize (L p). split; [lia|].
  intro H. apply P. apply B. lia.
Qed.

Lemma evictPage_one_live (f : Z) (v : VirtualScroll) :
  Measure.one_live_render v -> Measure.one_live_render (_evictPage f v).
Proof.
  apply one_live_weaken; unfold _evictPage;
    destruct (negb (Util.has f (_rendered v))); try (intros; auto; lia);
    destruct (Z.abs (f - _currentPage v) <=? 2)%Z; try (intros; auto; lia);
    destruct (Util.has f (canvases v)); cbn [renderer _pending]; intros; auto;
    apply live_cancelPage.
Qed.

Lemma evictPage_pending (f : Z) (v : VirtualScroll) :
  _pending (_evictPage f v) = _pending v.
Proof.
  unfold _evictPage. destruct (negb _); [reflexivity|].
  destruct (Z.abs _ <=? 2)%Z; [reflexivity|].
  destruct (Util.has f (canvases v)); reflexivity.
Qed.

Lemma evictFarPages_one_live (q : Z) (v : VirtualScroll) :
  Measure.one_live_render v -> Measure.one_live_render (_evictFarPages q v).
Proof.
  intro I. unfold _evictFarPages. destruct (_ <? _)%nat; [exact I|].
  destruct (farthest_from q (_rendered v)) as [f m].
  destruct (_ && _); [|exact I].
  destruct (_ <=? _)%Z; [apply evictPage_one_live|]; exact I.
Qed.

Lemma evictFarPages_pending (q : Z) (v : VirtualScroll) :
  _pending (_evictFarPages q v) = _pending v.
Proof.
  unfold _evictFarPages. destruct (_ <? _)%nat; [reflexivity|].
  destruct (farthest_from q (_rendered v)) as [f m].
  destruct (_ && _); [|reflexivity].
  destruct (_ <=? _)%Z; [apply evictPage_pending|reflexivity].
Qed.

Lemma scheduleRender_pending (q : Z) (v : VirtualScroll) :
  _pending (_scheduleRender q v)
  = if Util.has q (_rendered v) || Util.has q (_pending v)
    then _pending v else Util.add q (_pending v).
Proof.
  unfold _scheduleRender.
  destruct (Util.has q (_rendered v) || Util.has q (_pending v)); [reflexivity|].
  unfold _renderSlot.
  match goal with
  | |- context [_evictFarPages q ?w] =>
      pose proof (evictFarPages_pending q w) as H;
      set (u := _evictFarPages q w) in *
  end.
  destruct (PdfRenderer.renderPage q (renderer u)) as [r c].
  cbn [_pending] in *. exact H.
Qed.

Lemma scheduleRender_one_live (q : Z) (v : VirtualScroll) :
  Measure.one_live_render v -> Measure.one_live_render (_scheduleRender q v).
Proof.
  intro I. unfold _scheduleRender.
  destruct (Util.has q (_rendered v) || Util.has q (_pending v)) eqn:G; [exact I|].
  apply orb_false_iff in G. destruct G as [_ G].
  unfold _renderSlot.
  set (w := mkVS (renderer v) (totalPages v) (_rendered v)
              (Util.add q (_pending v)) (_currentPage v) (placeholders v)
              (canvases v)).
  assert (Iw : forall p,
             (Measure.live p (renderer w) <= 1)%nat
             /\ ((1 <= Measure.live p (renderer w))%nat ->
                 Util.has p (_pending v) = true)).
  { intro p. exact (I p). }
  assert (L : forall p, (Measure.live p (renderer (_evictFarPages q w))
                         <= Measure.live p (renderer w))%nat).
  { intro p. unfold _evictFarPages. destruct (_ <? _)%nat; [lia|].
    destruct (farthest_from q (_rendered w)) as [f m].
    destruct (_ && _); [|lia]. destruct (_ <=? _)%Z; [|lia].
    unfold _evictPage. destruct (negb _); [lia|].
    destruct (Z.abs _ <=? 2)%Z; [lia|].
    destruct (Util.has f (canvases w)); cbn [renderer]; apply live_cancelPage. }
  pose proof (evictFarPages_pending q w) as P.
  set (u := _evictFarPages q w) in *.
  pose proof (live_renderPage) as LR.
  destruct (PdfRenderer.renderPage q (renderer u)) as [r c] eqn:E.
  intro p. cbn [renderer _pending]. rewrite P. cbn [_pending w].
  specialize (LR p q (renderer u)). rewrite E in LR. cbn [fst] in LR.
  pose proof (live_cancelPage p q (renderer u)) as LC.
  destruct (Iw p) as [A B]. specialize (L p).
  rewrite has_add_iff.
  destruct (Z.eqb q p) eqn:Eq.
  - apply Z.eqb_eq in Eq. subst p.
    assert (Z0 : Measure.live q (renderer w) = 0%nat).
    { destruct (Measure.live q (renderer w)) eqn:K; [reflexivity|].
      rewrite B in G by lia. discriminate G. }
    split; [lia|]. intros _. rewrite Z.eqb_refl. apply orb_true_r.
  - split; [lia|]. intro H. rewrite B by lia. reflexivity.
Qed.

Lemma on_entry_one_live (en : Entry) (v : VirtualScroll) :
  Measure.one_live_render v -> Measure.one_live_render (fst (on_entry en v)).
Proof.
  intro I. unfold on_entry. destruct (isIntersecting en).
  - pose proof (scheduleRender_one_live (pageNum en) v I) as J.
    destruct (nearMiddle en && _); exact J.
  - apply evictPage_one_live. exact I.
Qed.

Lemma onIntersect_one_live (entries : list Entry) :
  forall v, Measure.one_live_render v ->
            Measure.one_live_render (fst (_onIntersect entries v)).
Proof.
  induction entries as [|en entries IH]; intros v I; [exact I|].
  cbn [_onIntersect]. pose proof (on_entry_one_live en v I) as J.
  destruct (on_entry en v) as [v1 c1]. cbn [fst] in J.
  specialize (IH v1 J). destruct (_onIntersect entries v1) as [v2 c2].
  exact IH.
Qed.

Lemma live_update_same_page (p q : Z) (c : nat) (st st' : PdfRenderer.CallState)
    (l : list (Z * PdfRenderer.CallState)) :
  nth_error l c = Some (q, st) ->
  (length (filter (Measure.is_live p) (PdfRenderer.update c (q, st') l))
   + (if Measure.is_live p (q, st) then 1 else 0)
   = length (filter (Measure.is_live p) l)
     + (if Measure.is_live p (q, st') then 1 else 0))%nat.
Proof. apply filter_update_count. Qed.

Lemma step_one_live (ev : Event) (v : VirtualScroll) :
  Measure.one_live_render v -> Measure.one_live_render (fst (step ev v)).
Proof.
  intro I. destruct ev as [entries|c|c|c|c]; cbn [step].
  - apply onIntersect_one_live. exact I.
  - cbn [fst]. revert I. apply one_live_weaken; [|intros; assumption].
    intro p. unfold with_renderer. cbn [renderer].
    unfold PdfRenderer.getPage_resolved, Measure.live.
    destruct (nth_error (PdfRenderer.calls (renderer v)) c) as [[q st]|] eqn:E;
      [|lia].
    destruct st; try lia. cbn [PdfRenderer.calls].
    pose proof (live_update_same_page p q c _ PdfRenderer.Rendering _ E) as H.
    cbn [Measure.is_live] in H. destruct (Z.eqb q p); lia.
  - unfold PdfRenderer.getPage_rejected.
    destruct (nth_error (PdfRenderer.calls (renderer v)) c) as [[q st]|] eqn:E;
      [|exact I].
    destruct st; try exact I. cbn [fst].
    intro p. unfold on_catch, with_renderer. cbn [renderer _pending].
    unfold Measure.live. cbn [PdfRenderer.calls].
    pose proof (live_update_same_page p q c _ PdfRenderer.Rejected _ E) as H.
    cbn [Measure.is_live] in H. destruct (I p) as [A B].
    unfold Measure.live in A, B. rewrite has_delete.
    destruct (Z.eqb q p) eqn:Eq.
    + split; [lia|]. intro K. lia.
    + split; [lia|]. intro K. rewrite B by lia. reflexivity.
  - unfold PdfRenderer.task_completed.
    destruct (nth_error (PdfRenderer.calls (renderer v)) c) as [[q st]|] eqn:E;
      [|exact I].
    destruct st; try exact I. cbn [fst].
    intro p. unfold on_done, with_renderer. cbn [renderer _pending].
    unfold Measure.live. cbn [PdfRenderer.calls].
    pose proof (live_update_same_page p q c _ PdfRenderer.Completed _ E) as H.
    cbn [Measure.is_live] in H. destruct (I p) as [A B].
    unfold Measure.live in A, B. rewrite has_delete.
    destruct (Z.eqb q p) eqn:Eq.
    + split; [lia|]. intro K. lia.
    + split; [lia|]. intro K. rewrite B by lia. reflexivity.
  - cbn [fst]. revert I. apply one_live_weaken; [|intros; assumption].
    intro p. unfold with_renderer. cbn [renderer].
    unfold PdfRenderer.task_failed, Measure.live.
    destruct (nth_error (PdfRenderer.calls (renderer v)) c) as [[q st]|] eqn:E;
      [|lia].
    destruct st; try lia. cbn [PdfRenderer.calls].
    pose proof (live_update_same_page p q c _ PdfRenderer.Failed _ E) as H.
    cbn [Measure.is_live] in H. destruct (Z.eqb q p); lia.
Qed.

Lemma outstanding_le_live (p : Z) (r : PdfRenderer.Renderer) :
  (PdfRenderer.outstanding p r <= Measure.live p r)%nat.
Proof.
  unfold PdfRenderer.outstanding, Measure.live.
  induction (PdfRenderer.calls r) as [|[q st] l IH]; [cbn; lia|].
  cbn [filter PdfRenderer.is_outstanding Measure.is_live].
  destruct st; try exact IH; destruct (Z.eqb q p); cbn [length]; lia.
Qed.

(** X10: when every call of [renderPage] comes from one scroll manager, a
    page never has two unsettled calls (waiting for [getPage] or
    rendering) at once and a page with an unsettled call is pending: at
    most one render task per page is outstanding after any sequence of
    observer entries and promise settlements. *)
Theorem X10_one_render_per_page_under_virtual_scroll
    (evs : list Event) (v : VirtualScroll) :
  Measure.one_live_render v ->
  Measure.one_live_render (run evs v)
  /\ forall p, (PdfRenderer.outstanding p (renderer (run evs v)) <= 1)%nat.
Proof.
  intro I.
  assert (J : Measure.one_live_render (run evs v)).
  { revert v I. induction evs as [|ev evs IH]; intros v I; [exact I|].
    cbn [run]. apply IH. apply step_one_live. exact I. }
  split; [exact J|]. intro p. destruct (J p) as [A _].
  pose proof (outstanding_le_live p (renderer (run evs v))). lia.
Qed.

Lemma scheduleRender_rendered_subset (q p : Z) (v : VirtualScroll) :
  Util.has p (_rendered (_scheduleRender q v)) = true ->
  Util.has p (_rendered v) = true.
Proof.
  destruct (scheduleRender_rendered q v) as [E|(f & E & _)]; rewrite E.
  - auto.
  - rewrite has_delete. intro H. apply andb_true_iff in H. apply H.
Qed.

Lemma on_entry_disjoint (en : Entry) (v : VirtualScroll) :
  Measure.disjoint v -> Measure.disjoint (fst (on_entry en v)).
Proof.
  intros D p. unfold on_entry. destruct (isIntersecting en).
  - assert (K : Util.has p (_rendered (_scheduleRender (pageNum en) v)) = true ->
                Util.has p (_pending (_scheduleRender (pageNum en) v)) = false).
    { intro H. pose proof (scheduleRender_rendered_subset _ _ _ H) as R.
      rewrite scheduleRender_pending.
      destruct (Util.has (pageNum en) (_rendered v)
                || Util.has (pageNum en) (_pending v)) eqn:G; [apply D; exact R|].
      rewrite has_add_iff, (D p R). cbn [orb].
      apply orb_false_iff in G. destruct G as [G _].
      apply Z.eqb_neq. intro. subst. congruence. }
    destruct (nearMiddle en && _); exact K.
  - cbn [fst]. rewrite evictPage_pending, evictPage_rendered.
    destruct (_ && _); [|apply D].
    rewrite has_delete. intro H. apply andb_true_iff in H. apply D. apply H.
Qed.

Lemma step_disjoint (ev : Event) (v : VirtualScroll) :
  Measure.disjoint v -> Measure.disjoint (fst (step ev v)).
Proof.
  intro D. destruct ev as [entries|c|c|c|c]; cbn [step].
  - revert v D. induction entries as [|en entries IH]; intros v D; [exact D|].
    cbn [_onIntersect]. pose proof (on_entry_disjoint en v D) as J.
    destruct (on_entry en v) as [v1 c1]. cbn [fst] in J.
    specialize (IH v1 J). destruct (_onIntersect entries v1) as [v2 c2].
    exact IH.
  - exact D.
  - destruct (PdfRenderer.getPage_rejected c (renderer v)) as [r [q|]];
      cbn [fst]; [|exact D].
    intros p H. unfold on_catch, with_renderer in *. cbn [_rendered _pending] in *.
    rewrite has_delete, (D p H). reflexivity.
  - destruct (PdfRenderer.task_completed c (renderer v)) as [r [q|]];
      cbn [fst]; [|exact D].
    intros p H. unfold on_done, with_renderer in *. cbn [_rendered _pending] in *.
    rewrite has_delete. rewrite has_add_iff in H.
    destruct (Z.eqb p q) eqn:E.
    + apply Z.eqb_eq in E. subst. rewrite Z.eqb_refl. apply andb_false_r.
    + rewrite orb_false_r in H. rewrite (D p H). reflexivity.
  - exact D.
Qed.

(** X11: no page is at once rendered and pending, after any sequence of
    observer entries and promise settlements. *)
Theorem X11_rendered_and_pending_are_disjoint (evs : list Event) (v : VirtualScroll) :
  Measure.disjoint v -> Measure.disjoint (run evs v).
Proof.
  revert v. induction evs as [|ev evs IH]; intros v D; [exact D|].
  cbn [run]. apply IH. apply step_disjoint. exact D.
Qed.

Lemma cancelPage_calls_length (p : Z) (r : PdfRenderer.Renderer) :
  length (PdfRenderer.calls (PdfRenderer.cancelPage p r))
  = length (PdfRenderer.calls r).
Proof.
  unfold PdfRenderer.cancelPage.
  destruct (Util.get p (PdfRenderer._rendered r)) as [t|]; [|reflexivity].
  unfold PdfRenderer.cancel_task. cbn [PdfRenderer.calls].
  destruct (nth_error (PdfRenderer.calls r) t) as [[q []]|]; try reflexivity.
  apply update_length.
Qed.

Lemma evictFarPages_calls_length (q : Z) (v : VirtualScroll) :
  length (PdfRenderer.calls (renderer (_evictFarPages q v)))
  = length (PdfRenderer.calls (renderer v)).
Proof.
  unfold _evictFarPages. destruct (_ <? _)%nat; [reflexivity|].
  destruct (farthest_from q (_rendered v)) as [f m].
  destruct (_ && _); [|reflexivity]. destruct (_ <=? _)%Z; [|reflexivity].
  unfold _evictPage. destruct (negb _); [reflexivity|].
  destruct (Z.abs _ <=? 2)%Z; [reflexivity|].
  destruct (Util.has f (canvases v)); cbn [renderer];
    apply cancelPage_calls_length.
Qed.

(** X12: [_scheduleRender] for a page that is rendered or pending changes
    nothing; for any other page it makes the page pending and issues
    exactly one call of [renderPage]; so scheduling the same page twice in
    a row is the same as scheduling it once. *)
Theorem X12_scheduling_twice_renders_once (q : Z) (v : VirtualScroll) :
  _scheduleRender q (_scheduleRender q v) = _scheduleRender q v
  /\ (Util.has q (_rendered v) = true \/ Util.has q (_pending v) = true ->
      _scheduleRender q v = v)
  /\ (Util.has q (_rendered v) = false -> Util.has q (_pending v) = false ->
      Util.has q (_pending (_scheduleRender q v)) = true
      /\ exists cs,
           PdfRenderer.calls (renderer (_scheduleRender q v))
           = cs ++ [(q, PdfRenderer.AwaitingPage)]
           /\ length cs = length (PdfRenderer.calls (renderer v))).
Proof.
  assert (A : forall w, Util.has q (_rendered w) = true
                        \/ Util.has q (_pending w) = true ->
                        _scheduleRender q w = w).
  { intros w H. unfold _scheduleRender.
    assert (G : Util.has q (_rendered w) || Util.has q (_pending w) = true)
      by (apply orb_true_iff; exact H).
    rewrite G. reflexivity. }
  assert (B : Util.has q (_rendered v) = false -> Util.has q (_pending v) = false ->
              Util.has q (_pending (_scheduleRender q v)) = true).
  { intros R P. rewrite scheduleRender_pending, R, P. cbn [orb].
    rewrite has_add_iff, Z.eqb_refl. apply orb_true_r. }
  split; [|split].
  - destruct (Util.has q (_rendered v)) eqn:R.
    + rewrite (A v) by (left; exact R). apply A. left. exact R.
    + destruct (Util.has q (_pending v)) eqn:P.
      * rewrite (A v) by (right; exact P). apply A. right. exact P.
      * apply A. right. apply B; reflexivity.
  - apply A.
  - intros R P. split; [apply B; assumption|].
    unfold _scheduleRender. rewrite R, P. cbn [orb]. unfold _renderSlot.
    match goal with
    | |- context [_evictFarPages q ?w] =>
        pose proof (evictFarPages_calls_length q w) as L;
        set (u := _evictFarPages q w) in *
    end.
    cbn [renderer] in L.
    exists (PdfRenderer.calls (PdfRenderer.cancelPage q (renderer u))).
    split; [reflexivity|].
    rewrite cancelPage_calls_length. exact L.
Qed.

(** The loop of [_evictFarPages] finds a maximal distance. *)
Lemma farthest_from_max (nearPage : Z) (l : list Z) :
  forall f0 m0,
    let '(f, m) :=
      fold_left
        (fun '(farthest, maxDist) p =>
           let d := Z.abs (p - nearPage) in
           if (d >? maxDist)%Z then (p, d) else (farthest, maxDist))
        l (f0, m0) in
    (m0 <= m)%Z
    /\ (forall p, In p l -> (Z.abs (p - nearPage) <= m)%Z)
    /\ (f = f0 /\ m = m0 \/ In f l /\ Z.abs (f - nearPage) = m /\ (m0 < m)%Z).
Proof.
  induction l as [|a l IH]; intros f0 m0.
  - cbn [fold_left]. split; [lia|]. split; [intros p []|]. left. split; reflexivity.
  - cbn [fold_left]. destruct (Z.abs (a - nearPage) >? m0)%Z eqn:E.
    + specialize (IH a (Z.abs (a - nearPage))).
      destruct (fold_left _ l (a, Z.abs (a - nearPage))) as [f m].
      destruct IH as (M & A & F). apply Z.gtb_lt in E.
      split; [lia|]. split.
      * intros p [<-|H]; [exact M|apply A; exact H].
      * right. destruct F as [[-> ->]|(I & D & L)].
        -- split; [left; reflexivity|]. split; [reflexivity|lia].
        -- split; [right; exact I|]. split; [exact D|lia].
    + specialize (IH f0 m0).
      destruct (fold_left _ l (f0, m0)) as [f m].
      destruct IH as (M & A & F).
      assert (E' : (Z.abs (a - nearPage) <= m0)%Z).
      { rewrite Z.gtb_ltb in E. apply Z.ltb_ge in E. exact E. }
      split; [exact M|]. split.
      * intros p [<-|H]; [lia|apply A; exact H].
      * destruct F as [F|(I & D & L)]; [left; exact F|].
        right. split; [right; exact I|]. split; assumption.
Qed.

Lemma has_In (p : Z) (l : list Z) : Util.has p l = true <-> In p l.
Proof.
  unfold Util.has. rewrite existsb_exists. split.
  - intros (x & I & E). apply Z.eqb_eq in E. subst. exact I.
  - intro I. exists p. split; [exact I|apply Z.eqb_refl].
Qed.

(** X13: a page that [_evictFarPages(nearPage)] removes is a rendered page
    at the largest distance from [nearPage] among the rendered pages; that
    distance exceeds 3, the page is farther than 2 from the current page,
    at least 5 pages were rendered, and no other page is removed. *)
Theorem X13_eviction_takes_a_farthest_page (nearPage f : Z) (v : VirtualScroll) :
  Util.has f (_rendered v) = true ->
  Util.has f (_rendered (_evictFarPages nearPage v)) = false ->
  (forall p, Util.has p (_rendered v) = true ->
             (Z.abs (p - nearPage) <= Z.abs (f - nearPage))%Z)
  /\ (3 < Z.abs (f - nearPage))%Z
  /\ (2 < Z.abs (f - _currentPage v))%Z
  /\ (5 <= length (_rendered v))%nat
  /\ _rendered (_evictFarPages nearPage v) = Util.delete f (_rendered v).
Proof.
  intros Hf Hg. revert Hg. unfold _evictFarPages.
  destruct (length (_rendered v) <? _maxBuffered)%nat eqn:L;
    [intro Hg; congruence|].
  apply Nat.ltb_ge in L. unfold _maxBuffered in L.
  pose proof (farthest_from_max nearPage (_rendered v) (-1) 0) as F.
  unfold farthest_from.
  destruct (fold_left _ (_rendered v) (-1, 0)%Z) as [g m].
  destruct F as (M & A & F).
  destruct ((g >? 0)%Z && (m >? 3)%Z) eqn:E; [|intro Hg; congruence].
  destruct (g <=? totalPages v)%Z; [|intro Hg; congruence].
  rewrite evictPage_rendered.
  destruct (Util.has g (_rendered v) && negb (Z.abs (g - _currentPage v) <=? 2)%Z)
    eqn:E2; [|intro Hg; congruence].
  rewrite has_delete, Hf. cbn [andb]. intro Hg.
  apply negb_false_iff in Hg. apply Z.eqb_eq in Hg. subst g.
  apply andb_true_iff in E. destruct E as [E0 E1]. apply Z.gtb_lt in E0, E1.
  apply andb_true_iff in E2. destruct E2 as [_ E2].
  apply negb_true_iff in E2. apply Z.leb_gt in E2.
  destruct F as [[F1 F2]|(I & D & K)]; [lia|].
  split.
  - intros p Hp. rewrite D. apply A. apply has_In. exact Hp.
  - repeat split; try lia.
Qed.

(** [_onIntersect] reports a page only when the current page changes. *)
Lemma on_entry_changes (en : Entry) (v : VirtualScroll) :
  (snd (on_entry en v) = [] /\ _currentPage (fst (on_entry en v)) = _currentPage v)
  \/ (snd (on_entry en v) = [pageNum en]
      /\ _currentPage (fst (on_entry en v)) = pageNum en
      /\ pageNum en <> _currentPage v
      /\ isIntersecting en = true /\ nearMiddle en = true).
Proof.
  unfold on_entry. destruct (isIntersecting en).
  - pose proof (scheduleRender_currentPage (pageNum en) v) as C.
    destruct (nearMiddle en); cbn [andb]; [|left; split; [reflexivity|exact C]].
    destruct (_currentPage (_scheduleRender (pageNum en) v) =? pageNum en)%Z eqn:E;
      cbn [negb fst snd].
    + left. split; [reflexivity|exact C].
    + right. apply Z.eqb_neq in E. rewrite C in E.
      repeat split; try reflexivity. intro K. apply E. symmetry. exact K.
  - left. split; [reflexivity|apply evictPage_currentPage].
Qed.

(** X14: [_onIntersect] calls [onPageChange] only when the current page
    changes: each reported page differs from the page reported before it
    (the first from the current page at the start), and the current page
    at the end is the last reported page. *)
Theorem X14_page_changes_are_reported_once (entries : list Entry) :
  forall v,
    Measure.changes (_currentPage v) (snd (_onIntersect entries v))
    /\ _currentPage (fst (_onIntersect entries v))
       = last (snd (_onIntersect entries v)) (_currentPage v).
Proof.
  induction entries as [|en entries IH]; intro v.
  - cbn [_onIntersect fst snd Measure.changes last]. split; [exact I|reflexivity].
  - cbn [_onIntersect]. pose proof (on_entry_changes en v) as C.
    destruct (on_entry en v) as [v1 c1]. cbn [fst snd] in C.
    specialize (IH v1). destruct (_onIntersect entries v1) as [v2 c2].
    cbn [fst snd] in *. destruct IH as [H1 H2].
    destruct C as [[-> E]|(-> & E & N & _)].
    + cbn [app]. rewrite <- E. split; assumption.
    + cbn [app Measure.changes]. rewrite E in H1, H2. split.
      * split; assumption.
      * rewrite H2. symmetry. apply last_cons.
Qed.

End ScrollMore.

Section ReaderMore.
Import Reader.

Lemma clamp_abs (v m : Q) : 0 <= m -> Qabs (Util.clamp v (- m) m) <= m.
Proof.
  intro H. apply Qabs_Qle_condition. apply clamp_range. lra.
Qed.

Lemma half_product_nonneg (a b : Q) : 0 <= a -> 0 <= b -> 0 <= a * b / 2.
Proof.
  intros A B. pose proof (Qmult_le_0_compat a b A B) as P.
  apply Qle_shift_div_l; [reflexivity|]. lra.
Qed.

Lemma clampPan_within_bounds (r : Reader) :
  0 <= clientWidth r -> 0 <= clientHeight r ->
  Measure.pan_within_bounds (_clampPan r).
Proof.
  intros W H. unfold Measure.pan_within_bounds, _clampPan.
  destruct (Qle_bool (_scale r) 1) eqn:E;
    cbn [with_transform _translateX _translateY _scale clientWidth clientHeight].
  - split; (eapply Qle_trans; [|apply Q.le_max_l]); discriminate.
  - assert (S : 1 < _scale r).
    { apply Qnot_le_lt. intro L. apply Qle_bool_iff in L. congruence. }
    split; (eapply Qle_trans; [apply clamp_abs|apply Q.le_max_r]);
      apply half_product_nonneg; lra.
Qed.

Lemma zoomTo_within_bounds (t cx cy : Q) (r : Reader) :
  0 <= clientWidth r -> 0 <= clientHeight r ->
  Measure.pan_within_bounds (_zoomTo t cx cy r).
Proof.
  intros W H. unfold _zoomTo. destruct (Qle_bool t 1).
  - unfold Measure.pan_within_bounds.
    cbn [with_transform _translateX _translateY _scale clientWidth clientHeight].
    split; (eapply Qle_trans; [|apply Q.le_max_l]); discriminate.
  - apply clampPan_within_bounds; assumption.
Qed.

(** X15: after [_clampPan], and so after a pinch, a double-tap zoom and a
    pan of the zoomed page in vertical mode, the translate is at most
    [(scale - 1) * viewport extent / 2] in magnitude on each axis (and 0
    at scale 1 or below), for a viewport of non-negative size. *)
Theorem X15_pan_stays_within_the_zoomed_page (r : Reader) :
  0 <= clientWidth r -> 0 <= clientHeight r ->
  Measure.pan_within_bounds (_clampPan r)
  /\ (forall newScale panDx panDy,
        Measure.pan_within_bounds (cb_onPinch newScale panDx panDy r))
  /\ (forall tx ty, Measure.pan_within_bounds (cb_onDoubleTap tx ty r))
  /\ (forall dx dy,
        mode r = vertical -> 105 # 100 < _scale r ->
        Measure.pan_within_bounds (cb_onPan dx dy r)).
Proof.
  intros W H. split; [apply clampPan_within_bounds; assumption|].
  split; [|split].
  - intros. unfold cb_onPinch. apply clampPan_within_bounds; assumption.
  - intros. unfold cb_onDoubleTap.
    destruct (Util.Qlt_bool _ _); apply zoomTo_within_bounds; assumption.
  - intros dx dy M S. unfold cb_onPan. rewrite M.
    apply Qlt_bool_iff in S. rewrite S.
    apply clampPan_within_bounds; assumption.
Qed.

(** X16: a double tap at scale 1.05 or below zooms to 2.5, and a second
    double tap, wherever it is, returns to scale 1 with translate (0, 0);
    a double tap at a scale above 1.05 returns to scale 1 with translate
    (0, 0). *)
Theorem X16_double_tap_toggles_the_zoom (tx ty tx2 ty2 : Q) (r : Reader) :
  (_scale r <= 105 # 100 ->
     _scale (cb_onDoubleTap tx ty r) = 25 # 10
     /\ _scale (cb_onDoubleTap tx2 ty2 (cb_onDoubleTap tx ty r)) = 1
     /\ _translateX (cb_onDoubleTap tx2 ty2 (cb_onDoubleTap tx ty r)) = 0
     /\ _translateY (cb_onDoubleTap tx2 ty2 (cb_onDoubleTap tx ty r)) = 0)
  /\ (105 # 100 < _scale r ->
        _scale (cb_onDoubleTap tx ty r) = 1
        /\ _translateX (cb_onDoubleTap tx ty r) = 0
        /\ _translateY (cb_onDoubleTap tx ty r) = 0).
Proof.
  assert (Z1 : forall cx cy r', _zoomTo 1 cx cy r' = with_transform r' 1 0 0).
  { intros. reflexivity. }
  assert (B : forall r', 105 # 100 < _scale r' ->
                         cb_onDoubleTap tx2 ty2 r' = with_transform r' 1 0 0
                         /\ cb_onDoubleTap tx ty r' = with_transform r' 1 0 0).
  { intros r' S. unfold cb_onDoubleTap. apply Qlt_bool_iff in S. rewrite S.
    split; apply Z1. }
  split.
  - intro S. apply Qlt_bool_false_iff in S.
    assert (E : _scale (cb_onDoubleTap tx ty r) = 25 # 10).
    { unfold cb_onDoubleTap. rewrite S. rewrite zoomTo_scale. reflexivity. }
    split; [exact E|].
    destruct (B (cb_onDoubleTap tx ty r)) as [-> _]; [rewrite E; reflexivity|].
    repeat split.
  - intro S. destruct (B r S) as [_ ->]. repeat split.
Qed.

(** X17: the end of a pinch at a scale below 1.05 resets the view to scale
    1 with translate (0, 0) and at a scale of 1.05 or more changes
    nothing; so after the end of a pinch the scale is 1 or at least
    1.05. *)
Theorem X17_pinch_end_snaps_small_scales (r : Reader) :
  (_scale r < 105 # 100 ->
     _scale (cb_onPinchEnd r) = 1
     /\ _translateX (cb_onPinchEnd r) = 0
     /\ _translateY (cb_onPinchEnd r) = 0)
  /\ (105 # 100 <= _scale r -> cb_onPinchEnd r = r)
  /\ (_scale (cb_onPinchEnd r) = 1 \/ 105 # 100 <= _scale (cb_onPinchEnd r)).
Proof.
  unfold cb_onPinchEnd.
  destruct (Util.Qlt_bool (_scale r) (105 # 100)) eqn:E.
  - apply Qlt_bool_iff in E. split; [intros _; repeat split|].
    split; [intro H; exfalso; apply (Qlt_not_le _ _ E H)|left; reflexivity].
  - apply Qlt_bool_false_iff in E.
    split; [intro H; exfalso; apply (Qlt_not_le _ _ H E)|].
    split; [reflexivity|right; exact E].
Qed.


Lemma denominator_positive (totalPages : Z) :
  1 <= inject_Z (Z.max (totalPages - 1) 1).
Proof. change 1 with (inject_Z 1). rewrite <- Zle_Qle. lia. Qed.

(** X19: the progress fraction of [_onPageChanged] is between 0 and 1 for
    a page within the document; it is 0 on page 1, also for a one-page
    document (the divisor is at least 1), and 1 on the last page of a
    longer document. *)
Theorem X19_pct_is_a_fraction (page totalPages : Z) :
  (1 <= page <= totalPages)%Z ->
  0 <= ReaderPages.pct page totalPages
  /\ ReaderPages.pct page totalPages <= 1
  /\ ReaderPages.pct 1 totalPages == 0
  /\ ((1 < totalPages)%Z -> ReaderPages.pct totalPages totalPages == 1).
Proof.
  intro R. unfold ReaderPages.pct.
  pose proof (denominator_positive totalPages) as D.
  assert (N0 : 0 <= inject_Z page - 1).
  { assert (1 <= inject_Z page) by (change 1 with (inject_Z 1); rewrite <- Zle_Qle; lia).
    lra. }
  assert (N1 : inject_Z page - 1 <= inject_Z (Z.max (totalPages - 1) 1)).
  { assert (inject_Z page <= inject_Z (Z.max (totalPages - 1) 1) + 1).
    { change 1 with (inject_Z 1). rewrite <- inject_Z_plus, <- Zle_Qle. lia. }
    lra. }
  split; [apply Qle_shift_div_l; lra|].
  split; [apply Qle_shift_div_r; lra|].
  split.
  - unfold Qdiv. change (inject_Z 1 - 1) with (0 # 1). ring.
  - intro T. replace (Z.max (totalPages - 1) 1) with (totalPages - 1)%Z by lia.
    unfold Zminus. rewrite inject_Z_plus. change (inject_Z (- (1))) with (- 1).
    field. assert (1 < inject_Z totalPages)
      by (change 1 with (inject_Z 1); rewrite <- Zlt_Qlt; exact T).
    lra.
Qed.

Lemma round_between (q : Q) (n : Z) :
  0 <= q -> q <= inject_Z n -> (0 <= ReaderPages.round q <= n)%Z.
Proof.
  intros L U. unfold ReaderPages.round. split.
  - change 0%Z with (Qfloor 0). apply Qfloor_resp_le. lra.
  - pose proof (Qfloor_le (q + (1 # 2))) as F.
    assert (K : inject_Z (Qfloor (q + (1 # 2))) < inject_Z (n + 1)).
    { rewrite inject_Z_plus. change (inject_Z 1) with 1. lra. }
    rewrite <- Zlt_Qlt in K. lia.
Qed.

Lemma round_integer (q : Q) (n : Z) : q == inject_Z n -> ReaderPages.round q = n.
Proof.
  intro E. unfold ReaderPages.round.
  pose proof (Qfloor_le (q + (1 # 2))) as F.
  pose proof (Qlt_floor (q + (1 # 2))) as G.
  rewrite inject_Z_plus in G. change (inject_Z 1) with 1 in G.
  assert (A : inject_Z (Qfloor (q + (1 # 2))) < inject_Z (n + 1)).
  { rewrite inject_Z_plus. change (inject_Z 1) with 1. lra. }
  assert (B : inject_Z n < inject_Z (Qfloor (q + (1 # 2)) + 1)).
  { rewrite inject_Z_plus. change (inject_Z 1) with 1. lra. }
  rewrite <- Zlt_Qlt in A, B. lia.
Qed.

(** X20: the page computed by [_doScrub] is within [1 .. totalPages]
    wherever the pointer is, for a track of positive width; it is 1 at or
    left of the left edge of the track and [totalPages] at or right of its
    right edge. *)
Theorem X20_scrubber_page_is_in_range (clientX left width : Q) (totalPages : Z) :
  0 < width -> (1 <= totalPages)%Z ->
  (1 <= ReaderPages.scrub_page clientX left width totalPages <= totalPages)%Z
  /\ (clientX <= left ->
      ReaderPages.scrub_page clientX left width totalPages = 1%Z)
  /\ (left + width <= clientX ->
      ReaderPages.scrub_page clientX left width totalPages = totalPages).
Proof.
  intros W T. unfold ReaderPages.scrub_page.
  set (p := Util.clamp ((clientX - left) / width) 0 1).
  assert (P : 0 <= p /\ p <= 1) by (apply clamp_range; discriminate).
  assert (T1 : 0 <= inject_Z totalPages - 1).
  { assert (1 <= inject_Z totalPages)
      by (change 1 with (inject_Z 1); rewrite <- Zle_Qle; exact T).
    lra. }
  split; [|split].
  - assert (R : (0 <= ReaderPages.round (p * (inject_Z totalPages - 1))
                 <= totalPages - 1)%Z).
    { apply round_between; [nra|].
      unfold Zminus. rewrite inject_Z_plus. change (inject_Z (- (1))) with (- 1).
      nra. }
    lia.
  - intro L. assert (E : p == 0).
    { unfold p, Util.clamp.
      assert (K : (clientX - left) / width <= 0).
      { apply Qle_shift_div_r; [exact W|]. lra. }
      rewrite (Q.max_r _ _ K). apply Q.min_l. discriminate. }
    rewrite (round_integer _ 0); [reflexivity|]. rewrite E. ring.
  - intro L. assert (E : p == 1).
    { unfold p, Util.clamp.
      assert (K : 1 <= (clientX - left) / width).
      { apply Qle_shift_div_l; [exact W|]. lra. }
      assert (K0 : 0 <= (clientX - left) / width) by lra.
      rewrite (Q.max_l _ _ K0). apply Q.min_r. exact K. }
    rewrite (round_integer _ (totalPages - 1)); [lia|].
    rewrite E. unfold Zminus. rewrite inject_Z_plus.
    change (inject_Z (- (1))) with (- 1). ring.
Qed.

(** X21: the start page of [open] is within [1 .. totalPages]: a saved
    page above 1 is restored, capped at the number of pages, and anything
    else (no record, page 0 or 1, a negative page) gives page 1. *)
Theorem X21_start_page_is_in_range (saved : option Z) (totalPages : Z) :
  (1 <= totalPages)%Z ->
  (1 <= ReaderPages.startPage saved totalPages <= totalPages)%Z
  /\ (forall c, saved = Some c -> (1 < c <= totalPages)%Z ->
                ReaderPages.startPage saved totalPages = c)
  /\ (forall c, saved = Some c -> (totalPages < c)%Z ->
                ReaderPages.startPage saved totalPages = totalPages)
  /\ (forall c, saved = Some c -> (c <= 1)%Z ->
                ReaderPages.startPage saved totalPages = 1%Z)
  /\ (saved = None -> ReaderPages.startPage saved totalPages = 1%Z).
Proof.
  intro T. unfold ReaderPages.startPage.
  split; [|split; [|split; [|split]]].
  - destruct saved as [c|]; [|lia].
    destruct (negb (c =? 0)%Z && (c >? 1)%Z) eqn:E; [|lia].
    apply andb_true_iff in E. destruct E as [_ E]. apply Z.gtb_lt in E. lia.
  - intros c -> R.
    assert (A : (c =? 0)%Z = false) by (apply Z.eqb_neq; lia).
    assert (B : (c >? 1)%Z = true) by (apply Z.gtb_lt; lia).
    rewrite A, B. cbn [negb andb]. lia.
  - intros c -> R.
    assert (A : (c =? 0)%Z = false) by (apply Z.eqb_neq; lia).
    assert (B : (c >? 1)%Z = true) by (apply Z.gtb_lt; lia).
    rewrite A, B. cbn [negb andb]. lia.
  - intros c -> R.
    assert (B : (c >? 1)%Z = false) by (rewrite Z.gtb_ltb; apply Z.ltb_ge; lia).
    rewrite B, andb_false_r. reflexivity.
  - intros ->. reflexivity.
Qed.

End ReaderMore.

Section StoreFacts.

Lemma sget_sput_same {V} (k : String.string) (v : V) (m : list (String.string * V)) :
  DB.sget k (DB.sput k v m) = Some v.
Proof.
  induction m as [|[k' v'] m IH]; cbn [DB.sput DB.sget].
  - rewrite String.eqb_refl. reflexivity.
  - destruct (String.eqb k k') eqn:E; cbn [DB.sget].
    + rewrite String.eqb_refl. reflexivity.
    + rewrite E. exact IH.
Qed.

Lemma sget_sput_other {V} (k k' : String.string) (v : V)
    (m : list (String.string * V)) :
  k' <> k -> DB.sget k' (DB.sput k v m) = DB.sget k' m.
Proof.
  intro N. assert (E' : String.eqb k' k = false) by (apply String.eqb_neq; exact N).
  induction m as [|[k0 v0] m IH]; cbn [DB.sput DB.sget].
  - rewrite E'. reflexivity.
  - destruct (String.eqb k k0) eqn:E; cbn [DB.sget].
    + apply String.eqb_eq in E. subst k0. rewrite E'. reflexivity.
    + destruct (String.eqb k' k0); [reflexivity|exact IH].
Qed.

Lemma sget_sdel_same {V} (k : String.string) (m : list (String.string * V)) :
  DB.sget k (DB.sdel k m) = None.
Proof.
  induction m as [|[k' v'] m IH]; [reflexivity|].
  cbn [DB.sdel filter fst]. destruct (String.eqb k k') eqn:E; cbn [negb].
  - exact IH.
  - cbn [DB.sget]. rewrite E. exact IH.
Qed.

Lemma sget_sdel_other {V} (k k' : String.string) (m : list (String.string * V)) :
  k' <> k -> DB.sget k' (DB.sdel k m) = DB.sget k' m.
Proof.
  intro N. assert (E' : String.eqb k' k = false) by (apply String.eqb_neq; exact N).
  induction m as [|[k0 v0] m IH]; [reflexivity|].
  cbn [DB.sdel filter fst]. destruct (String.eqb k k0) eqn:E; cbn [negb DB.sget].
  - apply String.eqb_eq in E. subst k0. rewrite E'. exact IH.
  - destruct (String.eqb k' k0); [reflexivity|exact IH].
Qed.

Variable Blob : Type.

(** X22: [getFile] after [saveFile] for the same id returns the saved
    blob, and [null] for an id without a record; [saveFile] changes the
    file of no other id and leaves the other two stores alone. *)
Theorem X22_saved_file_is_read_back (i j : String.string) (blob : Blob) (db : DB.Db Blob) :
  DB.getFile Blob i (DB.saveFile Blob i blob db) = Some blob
  /\ (j <> i -> DB.getFile Blob j (DB.saveFile Blob i blob db) = DB.getFile Blob j db)
  /\ (DB.sget i (DB.files Blob db) = None -> DB.getFile Blob i db = None)
  /\ DB.comics Blob (DB.saveFile Blob i blob db) = DB.comics Blob db
  /\ DB.progress Blob (DB.saveFile Blob i blob db) = DB.progress Blob db.
Proof.
  unfold DB.getFile, DB.saveFile. cbn [DB.files DB.comics DB.progress].
  split; [rewrite sget_sput_same; reflexivity|].
  split; [intro N; rewrite (sget_sput_other i j blob _ N); reflexivity|].
  split; [intro H; rewrite H; reflexivity|]. split; reflexivity.
Qed.

(** X23: after [deleteComic(id)] there is no comic, no file and no
    progress under that id, and the records of every other id are
    unchanged in all three stores. *)
Theorem X23_deleted_comic_leaves_no_record (i j : String.string) (db : DB.Db Blob) :
  let db' := DB.deleteComic Blob i db in
  DB.sget i (DB.comics Blob db') = None
  /\ DB.getFile Blob i db' = None
  /\ DB.getProgress Blob i db' = None
  /\ (j <> i ->
      DB.sget j (DB.comics Blob db') = DB.sget j (DB.comics Blob db)
      /\ DB.getFile Blob j db' = DB.getFile Blob j db
      /\ DB.getProgress Blob j db' = DB.getProgress Blob j db).
Proof.
  cbv zeta. unfold DB.deleteComic, DB.getFile, DB.getProgress.
  cbn [DB.files DB.comics DB.progress].
  rewrite !sget_sdel_same. repeat split; try reflexivity;
    rewrite (sget_sdel_other i j _ H); reflexivity.
Qed.

(** X24: [getProgress] returns the data and time of the last
    [saveProgress] for the id; [resetProgress] removes the progress of the
    id and nothing else (files, comics and the progress of other ids
    stay). *)
Theorem X24_saved_progress_is_the_latest (i j : String.string)
    (d1 d2 : DB.ProgressData) (t1 t2 : Z) (db : DB.Db Blob) :
  DB.getProgress Blob i (DB.saveProgress Blob i d2 t2 (DB.saveProgress Blob i d1 t1 db))
  = Some (DB.mkProgress d2 t2)
  /\ DB.getProgress Blob i (DB.resetProgress Blob i (DB.saveProgress Blob i d1 t1 db))
     = None
  /\ DB.getFile Blob j (DB.resetProgress Blob i db) = DB.getFile Blob j db
  /\ DB.comics Blob (DB.resetProgress Blob i db) = DB.comics Blob db
  /\ (j <> i ->
      DB.getProgress Blob j (DB.saveProgress Blob i d1 t1 db) = DB.getProgress Blob j db
      /\ DB.getProgress Blob j (DB.resetProgress Blob i db) = DB.getProgress Blob j db).
Proof.
  unfold DB.getProgress, DB.saveProgress, DB.resetProgress, DB.getFile.
  cbn [DB.files DB.comics DB.progress].
  split; [apply sget_sput_same|]. split; [apply sget_sdel_same|].
  split; [reflexivity|]. split; [reflexivity|].
  intro N. split; [apply sget_sput_other|apply sget_sdel_other]; exact N.
Qed.

End StoreFacts.

Section WorkerFacts.
Import ServiceWorker.

Variable index_html : String.string.

(** X25: when a request that is not cached gets a successful response,
    [cacheFirst] returns it, and the next [cacheFirst] for the same
    request returns the same response whatever the network does then
    (also when [fetch] fails). *)
Theorem X25_works_offline_after_the_first_load
    (net net2 : Request -> option Response) (request : Request)
    (upd upd2 : bool) (cache : Cache) (response : Response) :
  DB.sget (url request) cache = None ->
  net request = Some response ->
  ok response = true ->
  fst (cacheFirst index_html net request upd cache) = Some response
  /\ fst (cacheFirst index_html net2 request upd2
            (snd (cacheFirst index_html net request upd cache)))
     = Some response.
Proof.
  intros M N O.
  assert (E : cacheFirst index_html net request upd cache
              = (Some response, DB.sput (url request) response cache)).
  { unfold cacheFirst. rewrite M, N, O. reflexivity. }
  rewrite E. cbn [fst snd]. split; [reflexivity|].
  unfold cacheFirst. rewrite sget_sput_same. reflexivity.
Qed.

Lemma sput_all_ok (k : String.string) (r : Response) (cache : Cache) :
  ok r = true -> all_ok cache -> all_ok (DB.sput k r cache).
Proof.
  intros O A k' r' H. destruct (String.eqb k' k) eqn:E.
  - apply String.eqb_eq in E. subst k'. rewrite sget_sput_same in H.
    injection H as <-. exact O.
  - apply String.eqb_neq in E. rewrite (sget_sput_other k k' r cache E) in H.
    apply (A k' r' H).
Qed.

(** X26: [cacheFirst] and [fetchAndCache] never store a response that is
    not [ok]: a cache of successful responses stays one.  A failed
    response to an uncached request is returned and the cache is unchanged;
    when [fetch] fails for an uncached request, a navigation gets the
    cached [index.html] if there is one and every other request
    throws. *)
Theorem X26_failed_responses_are_never_cached
    (net : Request -> option Response) (request : Request) (upd : bool)
    (cache : Cache) :
  all_ok cache ->
  all_ok (snd (cacheFirst index_html net request upd cache))
  /\ all_ok (snd (fetchAndCache net request cache))
  /\ (forall response,
        DB.sget (url request) cache = None ->
        net request = Some response -> ok response = false ->
        cacheFirst index_html net request upd cache = (Some response, cache))
  /\ (DB.sget (url request) cache = None -> net request = None ->
      fst (cacheFirst index_html net request upd cache)
      = if navigate request then DB.sget index_html cache else None).
Proof.
  intro A.
  assert (F : all_ok (snd (fetchAndCache net request cache))).
  { unfold fetchAndCache. destruct (net request) as [r|]; cbn [snd]; [|exact A].
    destruct (ok r) eqn:O; [apply sput_all_ok; assumption|exact A]. }
  split; [|split; [exact F|split]].
  - unfold cacheFirst. destruct (DB.sget (url request) cache) as [c|]; cbn [snd].
    + destruct (negb upd); [exact F|exact A].
    + destruct (net request) as [r|]; cbn [snd].
      * destruct (ok r) eqn:O; [apply sput_all_ok; assumption|exact A].
      * destruct (navigate request); [|exact A].
        destruct (DB.sget index_html cache); exact A.
  - intros r M N O. unfold cacheFirst. rewrite M, N, O. reflexivity.
  - intros M N. unfold cacheFirst. rewrite M, N.
    destruct (navigate request); [|reflexivity].
    destruct (DB.sget index_html cache); reflexivity.
Qed.

End WorkerFacts.

(** ** Examples of the properties above *)

(** A frame while pointer 1 is down emits nothing. *)
Lemma X2_timers_match_contacts_always_witness :
  snd (GestureEngine.on_frame
         (fst (GestureEngine.run sqrt_on_squares
                 [GestureEngine.pointerdown None (ev 100 100 1000)]
                 GestureEngine.new_engine))) = [].
Proof.
  destruct (X2_timers_match_contacts_always sqrt_on_squares
              [GestureEngine.pointerdown None (ev 100 100 1000)]
              GestureEngine.new_engine) as (_ & F & _).
  - split; intros a b H; discriminate H.
  - apply (F (ev 0 0 0)). intro H. vm_compute in H. discriminate H.
Defined.

(** A press at (100, 100), held for 600 ms and released in place. *)
Lemma X3_long_press_suppresses_tap_witness :
  snd (GestureEngine.run sqrt_on_squares
         [GestureEngine.pointerdown None (ev 100 100 1000);
          GestureEngine.longPressTimeout;
          GestureEngine.pointerup (ev 100 100 1600)]
         GestureEngine.new_engine)
  = [GestureEngine.onLongPress 100 100; GestureEngine.onPanEnd].
Proof.
  exact (proj1 (X3_long_press_suppresses_tap sqrt_on_squares None
                  (ev 100 100 1000) (ev 100 100 1600)
                  GestureEngine.new_engine eq_refl eq_refl)).
Defined.


(** The drag from (100, 100) to (130, 95). *)
Lemma X5_pan_deltas_add_up_to_the_displacement_witness :
  Measure.pan_dx
    (snd (GestureEngine.run sqrt_on_squares
            (GestureEngine.pointerdown None (ev 100 100 1000)
               :: map GestureEngine.pointermove drag_moves)
            GestureEngine.new_engine))
  == 130 - 100.
Proof.
  apply (X5_pan_deltas_add_up_to_the_displacement sqrt_on_squares None
           (ev 100 100 1000) drag_moves GestureEngine.new_engine eq_refl).
  intros m [<-|[<-|[]]]; reflexivity.
Defined.

(** In the pinch between (0, 0) and (100, 0) the second finger lifts and
    the first moves to (10, 5). *)
Lemma X6_pinch_end_resets_pan_reference_witness :
  snd (GestureEngine._onMove sqrt_on_squares (GestureEngine.mkEvent 1 10 5 1110)
         (fst (GestureEngine._onUp sqrt_on_squares
                 (GestureEngine.mkEvent 2 100 0 1100) engine_pinching)))
  = [GestureEngine.onPan (10 - 0) (5 - 0) true].
Proof.
  destruct (X6_pinch_end_resets_pan_reference sqrt_on_squares 1 2
              (GestureEngine.mkPointer 0 0 0 0)
              (GestureEngine.mkPointer 100 0 100 0)
              (GestureEngine.mkEvent 2 100 0 1100)
              (GestureEngine.mkEvent 1 10 5 1110)
              engine_pinching eq_refl) as [A _]; [discriminate|].
  destruct A as (_ & _ & _ & _ & A); [reflexivity | reflexivity | exact A].
Defined.

(** A move by 16 px, 16 ms after the press. *)
Lemma X7_velocity_is_smoothed_witness :
  GestureEngine._panVelX
    (fst (GestureEngine._onMove sqrt_on_squares (ev 116 100 1016) engine_pressed))
  == (6 # 10) * ((116 - 100) / Util.or_default (1016 - 1000) 16 * 16)
     + (4 # 10) * 0.
Proof.
  exact (proj1 (X7_velocity_is_smoothed sqrt_on_squares (ev 116 100 1016)
                  (GestureEngine.mkPointer 100 100 100 100) engine_pressed
                  eq_refl)).
Defined.

(** The two recorded tasks are cancelled in turn. *)
Lemma X9_cancelAll_cancels_each_recorded_task_once_witness :
  PdfRenderer.cancels (RendererTeardown.cancelAll renderer_two) = [0; 1]%nat
  /\ PdfRenderer._rendered (RendererTeardown.cancelAll renderer_two) = [].
Proof.
  destruct (X9_cancelAll_cancels_each_recorded_task_once renderer_two)
    as (A & B & _).
  - cbn. constructor; [intros [H|[]]; discriminate H|].
    constructor; [intros []|constructor].
  - split; [exact A | exact B].
Defined.

(** Six pages rendered one after the other. *)
Lemma X10_one_render_per_page_under_virtual_scroll_witness :
  (PdfRenderer.outstanding 6
     (VirtualScroll.renderer
        (VirtualScroll.run events_six
           (VirtualScroll.new_scroll PdfRenderer.new_renderer 10))) <= 1)%nat.
Proof.
  apply (X10_one_render_per_page_under_virtual_scroll events_six
           (VirtualScroll.new_scroll PdfRenderer.new_renderer 10)).
  intro p. split; [apply Nat.le_0_l|].
  intro H. exfalso. apply (Nat.nle_succ_0 0 H).
Defined.

Lemma X11_rendered_and_pending_are_disjoint_witness :
  Util.has 6
    (VirtualScroll._pending
       (VirtualScroll.run events_six
          (VirtualScroll.new_scroll PdfRenderer.new_renderer 10))) = false.
Proof.
  apply (X11_rendered_and_pending_are_disjoint events_six
           (VirtualScroll.new_scroll PdfRenderer.new_renderer 10)).
  - intros p H. discriminate H.
  - reflexivity.
Defined.

(** With the pages 1 to 5 rendered and page 8 current, a render of page 9
    evicts page 1. *)
Lemma X13_eviction_takes_a_farthest_page_witness :
  (3 < Z.abs (1 - 9))%Z
  /\ VirtualScroll._rendered (VirtualScroll._evictFarPages 9 scroll_moved)
     = Util.delete 1 (VirtualScroll._rendered scroll_moved).
Proof.
  destruct (X13_eviction_takes_a_farthest_page 9 1 scroll_moved eq_refl eq_refl)
    as (_ & A & _ & _ & B).
  split; [exact A | exact B].
Defined.

Lemma X15_pan_stays_within_the_zoomed_page_witness :
  Measure.pan_within_bounds (Reader._clampPan reader_v).
Proof.
  apply (X15_pan_stays_within_the_zoomed_page reader_v); discriminate.
Defined.


Lemma X19_pct_is_a_fraction_witness :
  0 <= ReaderPages.pct 2 3 /\ ReaderPages.pct 2 3 <= 1.
Proof.
  destruct (X19_pct_is_a_fraction 2 3) as (A & B & _).
  - split; discriminate.
  - split; [exact A | exact B].
Defined.

Lemma X20_scrubber_page_is_in_range_witness :
  (1 <= ReaderPages.scrub_page 50 0 100 5 <= 5)%Z.
Proof.
  apply (X20_scrubber_page_is_in_range 50 0 100 5); [reflexivity | discriminate].
Defined.

Lemma X21_start_page_is_in_range_witness :
  ReaderPages.startPage (Some 7%Z) 5 = 5%Z.
Proof.
  destruct (X21_start_page_is_in_range (Some 7%Z) 5) as (_ & _ & A & _ & _).
  - discriminate.
  - apply (A 7%Z eq_refl). reflexivity.
Defined.

Lemma X25_works_offline_after_the_first_load_witness :
  fst (ServiceWorker.cacheFirst WorkerSamples.index_html
         WorkerSamples.network_down WorkerSamples.request_app false
         (snd (ServiceWorker.cacheFirst WorkerSamples.index_html
                 WorkerSamples.network_up WorkerSamples.request_app false [])))
  = Some WorkerSamples.response_app.
Proof.
  apply (X25_works_offline_after_the_first_load WorkerSamples.index_html
           WorkerSamples.network_up WorkerSamples.network_down
           WorkerSamples.request_app false false []
           WorkerSamples.response_app eq_refl eq_refl eq_refl).
Defined.

Lemma X26_failed_responses_are_never_cached_witness :
  ServiceWorker.cacheFirst WorkerSamples.index_html
    WorkerSamples.network_missing WorkerSamples.request_app false []
  = (Some WorkerSamples.response_missing, []).
Proof.
  destruct (X26_failed_responses_are_never_cached WorkerSamples.index_html
              WorkerSamples.network_missing WorkerSamples.request_app false [])
    as (_ & _ & C & _).
  - intros k r H. discriminate H.
  - apply (C WorkerSamples.response_missing); reflexivity.
Defined.
